(** * studyplot: the normalisation core of [studyplot.py]

    A shallow embedding of the duration parser, the session loader with its
    daily aggregation, and the weekday / half-hour density binner, followed by
    the properties of these that the specification states.

    Conventions of the embedding.
    - A [datetime] is a whole number of seconds; the quotient by 86400 is the
      proleptic Gregorian ordinal of its calendar day ([date.toordinal]) and the
      remainder is the second of the day.  Every datetime the program builds
      comes from [strptime] with a format that has no fractional part, or from
      adding whole-second [timedelta]s, so no sub-second part is ever needed
      (the clock reading [datetime.now()] apart, which keeps its microseconds).
    - A [timedelta] is a whole number of seconds.
    - Python exceptions are the [Raise] results of the [result] monad.
    - A Python or pandas float is an IEEE 754 binary64 number, computed with
      the standard's operations rounded to nearest, ties to even; they are
      taken from the Standard Library's specification of floating-point
      arithmetic, which is executable.  The NaN a computation may produce is
      the NaN of that type; the NaN pandas writes where a window holds too
      few observations is [None].  The cells of the density matrix are
      counters while the walk runs (adding 1.0 to a float is exact far beyond
      any count the walk can reach) and become floats when the matrix is
      normalised.
    - A frame is the list of its rows.  The limits of the nanosecond
      timestamps and spans pandas stores (years 1677 to 2262, about 292 years)
      are not modelled; the dates [strptime] produces lie within them. *)

From Stdlib Require Import ZArith QArith Qabs String Ascii Lia SpecFloat.
From stdpp Require Import base option list gmap strings.
From Equations Require Import Equations.

Local Open Scope Z_scope.

(** ** Exceptions *)

Inductive exn : Set :=
| ValueError
| OverflowError
| IndexError
| UnboundLocalError
| KeyError.

Inductive result (A : Type) : Type :=
| Ok (a : A)
| Raise (e : exn).
Arguments Ok {A} a.
Arguments Raise {A} e.

#[export] Instance result_ret : MRet result := fun A a => Ok a.
#[export] Instance result_bind : MBind result := fun A B f m =>
  match m with
  | Ok a => f a
  | Raise e => Raise e
  end.

Definition raises {A} (m : result A) : Prop := exists e, m = Raise e.

(** ** Text

    Strings are sequences of code points below 256.  In that range the
    characters Python counts as white space ([str.isspace], which [str.strip]
    and the regular expression class [\s] use) are 9-13, 28-32, 133 and 160,
    and the only decimal digits are ["0"] to ["9"].  [int] has a narrower
    white space of its own, [int_isspace] below. *)

Definition isspace (c : ascii) : bool :=
  let n := nat_of_ascii c in
  ((9 <=? n) && (n <=? 13) || (28 <=? n) && (n <=? 32)
   || (n =? 133) || (n =? 160))%nat.

Definition isdigit (c : ascii) : bool :=
  let n := nat_of_ascii c in ((48 <=? n) && (n <=? 57))%nat.

Definition digit_value (c : ascii) : Z := Z.of_nat (nat_of_ascii c) - 48.

Fixpoint lstrip (s : string) : string :=
  match s with
  | String c s' => if isspace c then lstrip s' else s
  | EmptyString => EmptyString
  end.

Definition rstrip (s : string) : string := String.rev (lstrip (String.rev s)).

(** [s.strip()] *)
Definition strip (s : string) : string := rstrip (lstrip s).

(** [s.split(sep)] for a separator of one character. *)
Fixpoint split (sep : ascii) (s : string) : list string :=
  match s with
  | EmptyString => [EmptyString]
  | String c s' =>
      if Ascii.eqb c sep then EmptyString :: split sep s'
      else match split sep s' with
           | part :: parts => String c part :: parts
           | [] => [String c EmptyString]
           end
  end.

(** [sep in s] for a [sep] of one character. *)
Fixpoint contains (sep : ascii) (s : string) : bool :=
  match s with
  | EmptyString => false
  | String c s' => Ascii.eqb c sep || contains sep s'
  end.

(** [parts[i]] *)
Definition item (parts : list string) (i : nat) : result string :=
  match parts !! i with
  | Some part => Ok part
  | None => Raise IndexError
  end.

(** The digits of an integer literal: at least one digit, and single
    underscores allowed between digits only.  [after] tells what the previous
    character was. *)
Inductive seen : Set := Nothing | Digit | Underscore.

Fixpoint int_digits (after : seen) (acc : Z) (s : string) : option Z :=
  match s with
  | EmptyString =>
      match after with
      | Digit => Some acc
      | _ => None
      end
  | String c s' =>
      if isdigit c then int_digits Digit (10 * acc + digit_value c) s'
      else if Ascii.eqb c "_" then
        match after with
        | Digit => int_digits Underscore acc s'
        | _ => None
        end
      else None
  end.

(** The white space [int] accepts around a number.  [int] maps the white
    space of the string that is not ASCII to a blank and then skips what C's
    [isspace] accepts: among the code points below 256 that leaves 9-13, 32,
    133 and 160.  The separators 28-31, which [str.strip] removes, are not
    skipped: [int] of a string that holds one is a [ValueError]. *)
Definition int_isspace (c : ascii) : bool :=
  let n := nat_of_ascii c in
  ((9 <=? n) && (n <=? 13) || (n =? 32) || (n =? 133) || (n =? 160))%nat.

Fixpoint skip (space : ascii -> bool) (s : string) : string :=
  match s with
  | String c s' => if space c then skip space s' else s
  | EmptyString => EmptyString
  end.

Definition int_strip (s : string) : string :=
  String.rev (skip int_isspace (String.rev (skip int_isspace s))).

(** [int(s)]: surrounding white space, an optional sign, digits.  (The
    interpreter's optional cap on the number of digits is not modelled.) *)
Definition int (s : string) : result Z :=
  let signed :=
    match int_strip s with
    | String "+" digits => int_digits Nothing 0 digits
    | String "-" digits => Z.opp <$> int_digits Nothing 0 digits
    | digits => int_digits Nothing 0 digits
    end in
  match signed with
  | Some n => Ok n
  | None => Raise ValueError
  end.

(** ** The duration parser (lines 7-18) *)

Definition timedelta : Set := Z.

(** [timedelta(hours=, minutes=, seconds=)]: the normalised day count must
    have magnitude at most 999999999. *)
Definition timedelta_of (hours minutes seconds : Z) : result timedelta :=
  let total := hours * 3600 + minutes * 60 + seconds in
  if decide (Z.abs (total `div` 86400) <= 999999999) then Ok total
  else Raise OverflowError.

(** One [if marker in duration_str:] block: the value of the unit and the
    string the next block looks at. *)
Definition take_unit (marker : ascii) (duration_str : string)
  : result (Z * string) :=
  if contains marker duration_str then
    head ← item (split marker duration_str) 0;
    value ← int head;
    rest ← item (split marker duration_str) 1;
    Ok (value, rest)
  else Ok (0, duration_str).

(** The three unit values, before they are combined. *)
Definition parse_units (duration_str : string) : result (Z * Z * Z) :=
  '(hours, duration_str) ← take_unit "h" duration_str;
  '(minutes, duration_str) ← take_unit "m" duration_str;
  seconds ←
    (if contains "s" duration_str then
       head ← item (split "s" duration_str) 0; int head
     else Ok 0);
  Ok (hours, minutes, seconds).

Definition parse_duration (duration_str : string) : result timedelta :=
  '(hours, minutes, seconds) ← parse_units duration_str;
  timedelta_of hours minutes seconds.

(** ** Datetimes *)

Definition datetime : Set := Z.

Definition toordinal (t : datetime) : Z := t `div` 86400.
Definition hour (t : datetime) : Z := (t `mod` 86400) `div` 3600.
Definition minute (t : datetime) : Z := (t `mod` 3600) `div` 60.

(** [date.weekday]: [(self.toordinal() + 6) % 7], Monday is 0. *)
Definition weekday (t : datetime) : Z := (toordinal t + 6) `mod` 7.

(** [datetime(year, month, day, h, m, s)] for the calendar day of ordinal
    [ord]. *)
Definition combine (ord h m s : Z) : datetime :=
  ord * 86400 + h * 3600 + m * 60 + s.

(** ** The calendar ([datetime] module) *)

Definition is_leap (year : Z) : bool :=
  bool_decide (year `mod` 4 = 0)
  && (negb (bool_decide (year `mod` 100 = 0))
      || bool_decide (year `mod` 400 = 0)).

Definition days_before_year (year : Z) : Z :=
  let y := year - 1 in y * 365 + y `div` 4 - y `div` 100 + y `div` 400.

Definition DAYS_IN_MONTH : list Z :=
  [-1; 31; 28; 31; 30; 31; 30; 31; 31; 30; 31; 30; 31].

Definition DAYS_BEFORE_MONTH : list Z :=
  [-1; 0; 31; 59; 90; 120; 151; 181; 212; 243; 273; 304; 334].

Definition days_in_month (year month : Z) : Z :=
  if bool_decide (month = 2) && is_leap year then 29
  else DAYS_IN_MONTH !!! Z.to_nat month.

Definition days_before_month (year month : Z) : Z :=
  DAYS_BEFORE_MONTH !!! Z.to_nat month
  + (if bool_decide (2 < month) && is_leap year then 1 else 0).

Definition ymd2ord (year month day : Z) : Z :=
  days_before_year year + days_before_month year month + day.

(** [_ord2ymd]: the year, month and day of an ordinal.  The ordinal is cut
    into cycles of 400, 100, 4 and 1 years; the month is estimated from the
    day of the year and corrected when the estimate is too high. *)
Definition ord2ymd (n : Z) : Z * Z * Z :=
  let n := n - 1 in
  let n400 := n `div` 146097 in
  let n := n `mod` 146097 in
  let year := n400 * 400 + 1 in
  let n100 := n `div` 36524 in
  let n := n `mod` 36524 in
  let n4 := n `div` 1461 in
  let n := n `mod` 1461 in
  let n1 := n `div` 365 in
  let n := n `mod` 365 in
  let year := year + n100 * 100 + n4 * 4 + n1 in
  if bool_decide (n1 = 4 \/ n100 = 4) then (year - 1, 12, 31)
  else
    let leapyear :=
      bool_decide (n1 = 3)
      && (negb (bool_decide (n4 = 24)) || bool_decide (n100 = 3)) in
    let month := Z.shiftr (n + 50) 5 in
    let preceding :=
      DAYS_BEFORE_MONTH !!! Z.to_nat month
      + (if bool_decide (2 < month) && leapyear then 1 else 0) in
    if decide (n < preceding) then
      let month := month - 1 in
      let preceding :=
        preceding
        - (DAYS_IN_MONTH !!! Z.to_nat month
           + (if bool_decide (month = 2) && leapyear then 1 else 0)) in
      (year, month, n - preceding + 1)
    else (year, month, n - preceding + 1).

(** [t.year], [t.month], [t.day], and the constructor
    [datetime(year, month, day, hour, minute, second)]. *)
Definition year (t : datetime) : Z := (ord2ymd (toordinal t)).1.1.
Definition month (t : datetime) : Z := (ord2ymd (toordinal t)).1.2.
Definition day (t : datetime) : Z := (ord2ymd (toordinal t)).2.

Definition datetime_of (year month day hour minute second : Z) : datetime :=
  combine (ymd2ord year month day) hour minute second.

(** ** [datetime.strptime(s, "%y-%m-%d %H:%M:%S")]

    The format compiles to the regular expression
    [(\d\d)-(1[0-2]|0[1-9]|[1-9])-(3[01]|[12]\d|0[1-9]|[1-9]| [1-9])\s+
     (2[0-3]|[01]\d|\d):([0-5]\d|\d):(6[01]|[0-5]\d|\d)],
    matched at the start of the string with the alternatives tried from left
    to right; text left over after the match, a day the month does not have,
    and a second above 59 are errors. *)

Definition between (lo hi : string) (c : ascii) : bool :=
  match lo, hi with
  | String l _, String h _ =>
      ((nat_of_ascii l <=? nat_of_ascii c)
       && (nat_of_ascii c <=? nat_of_ascii h))%nat
  | _, _ => false
  end.

Definition two (first second : ascii -> bool) (s : string)
  : option (Z * string) :=
  match s with
  | String a (String b rest) =>
      if first a && second b
      then Some (10 * digit_value a + digit_value b, rest) else None
  | _ => None
  end.

Definition one (only : ascii -> bool) (s : string) : option (Z * string) :=
  match s with
  | String a rest => if only a then Some (digit_value a, rest) else None
  | _ => None
  end.

Definition blank_then (only : ascii -> bool) (s : string)
  : option (Z * string) :=
  match s with
  | String " " rest => one only rest
  | _ => None
  end.

Definition lit (c : ascii) (s : string) : option string :=
  match s with
  | String a rest => if Ascii.eqb a c then Some rest else None
  | _ => None
  end.

(** [\s+]: what follows it starts with a digit, so the greedy match is the
    only one that can succeed. *)
Definition spaces (s : string) : option string :=
  match s with
  | String a rest => if isspace a then Some (lstrip rest) else None
  | _ => None
  end.

(** A group of alternatives followed by the rest of the expression [k]: the
    first alternative after which [k] matches wins. *)
Definition group {A} (alts : list (string -> option (Z * string)))
    (s : string) (k : Z -> string -> option A) : option A :=
  foldr (fun alt later =>
           match alt s ≫= (fun '(v, rest) => k v rest) with
           | Some r => Some r
           | None => later
           end) None alts.

Definition re_m : list (string -> option (Z * string)) :=
  [two (between "1" "1") (between "0" "2");
   two (between "0" "0") (between "1" "9"); one (between "1" "9")].
Definition re_d : list (string -> option (Z * string)) :=
  [two (between "3" "3") (between "0" "1"); two (between "1" "2") isdigit;
   two (between "0" "0") (between "1" "9"); one (between "1" "9");
   blank_then (between "1" "9")].
Definition re_H : list (string -> option (Z * string)) :=
  [two (between "2" "2") (between "0" "3"); two (between "0" "1") isdigit;
   one isdigit].
Definition re_M : list (string -> option (Z * string)) :=
  [two (between "0" "5") isdigit; one isdigit].
Definition re_S : list (string -> option (Z * string)) :=
  [two (between "6" "6") (between "0" "1"); two (between "0" "5") isdigit;
   one isdigit].

Definition strptime_match (s : string)
  : option (Z * Z * Z * Z * Z * Z * string) :=
  '(yy, s) ← two isdigit isdigit s;
  s ← lit "-" s;
  group re_m s (fun mo s =>
    s ← lit "-" s;
    group re_d s (fun dd s =>
      s ← spaces s;
      group re_H s (fun hh s =>
        s ← lit ":" s;
        group re_M s (fun mi s =>
          s ← lit ":" s;
          group re_S s (fun ss s => Some (yy, mo, dd, hh, mi, ss, s)))))).

Definition strptime (data_string : string) : result datetime :=
  match strptime_match data_string with
  | Some (yy, mo, dd, hh, mi, ss, EmptyString) =>
      let year := if decide (yy <= 68) then 2000 + yy else 1900 + yy in
      if decide (dd <= days_in_month year mo /\ ss <= 59)
      then Ok (combine (ymd2ord year mo dd) hh mi ss)
      else Raise ValueError
  | _ => Raise ValueError
  end.

(** ** Sessions and the loader (lines 29-40) *)

(** One element of [records]. *)
Record Session : Set := {
  Date : Z;
  Start_Time : datetime;
  End_Time : datetime;
  Duration : timedelta
}.

Definition truthy (s : string) : bool := negb (String.eqb s "").

(** [len(parts) == 4 and parts[1] and parts[2]] *)
Definition accepted (parts : list string) : bool :=
  bool_decide (length parts = 4%nat)
  && truthy (parts !!! 1%nat) && truthy (parts !!! 2%nat).

Definition record_of (parts : list string) : result Session :=
  field ← item parts 1;
  start_time ← strptime field;
  field ← item parts 2;
  end_time ← strptime field;
  field ← item parts 3;
  duration ← parse_duration field;
  Ok {| Date := toordinal start_time; Start_Time := start_time;
        End_Time := end_time; Duration := duration |}.

(** [for line in data:], with [records] threaded through. *)
Fixpoint load (data : list string) (records : list Session)
  : result (list Session) :=
  match data with
  | [] => Ok records
  | line :: data' =>
      let parts := split "," (strip line) in
      if accepted parts
      then row ← record_of parts; load data' (records ++ [row])
      else load data' records
  end.

(** ** The daily series (lines 42-51) *)

(** [df.groupby("Date")["Duration"].sum()] *)
Definition groupby_sum (df : list Session) : gmap Z timedelta :=
  foldr (fun row sums =>
           <[Date row := default 0 (sums !! Date row) + Duration row]> sums)
        ∅ df.

(** [pd.date_range(start=lo, end=hi)], daily. *)
Definition date_range (lo hi : Z) : list Z := seqZ lo (hi - lo + 1).

(** [series.reindex(index, fill_value=fill)] *)
Definition reindex (series : gmap Z timedelta) (index : list Z)
    (fill : timedelta) : list (Z * timedelta) :=
  (fun d => (d, default fill (series !! d))) <$> index.

(** The body of [if not df.empty:], which is what binds [study_per_day]. *)
Definition study_per_day (df : list Session) : option (list (Z * timedelta)) :=
  match Date <$> df with
  | [] => None
  | d :: ds =>
      let all_dates := date_range (foldr Z.min d ds) (foldr Z.max d ds) in
      Some (reindex (groupby_sum df) all_dates 0)
  end.

(** Reading a local variable. *)
Definition local {A} (v : option A) : result A :=
  match v with
  | Some a => Ok a
  | None => Raise UnboundLocalError
  end.

(** ** Floats

    binary64: 53 bits of precision, exponents up to 1024.  The operations
    round to nearest, ties to even, and follow the standard on zeros,
    infinities and NaN. *)
Definition float : Set := spec_float.

Definition fadd : float -> float -> float := SFadd 53 1024.
Definition fsub : float -> float -> float := SFsub 53 1024.
Definition fmul : float -> float -> float := SFmul 53 1024.
Definition fdiv : float -> float -> float := SFdiv 53 1024.
Definition fneg : float -> float := SFopp.

(** [x == y] and [x < y]; both are false when one side is NaN. *)
Definition feq : float -> float -> bool := SFeqb.
Definition flt : float -> float -> bool := SFltb.

(** [float(z)], the float nearest to an integer. *)
Definition float_of_Z (z : Z) : float := binary_normalize 53 1024 z 0 false.

Definition nan : float := S754_nan.

(** C's [signbit]. *)
Definition signbit (x : float) : bool :=
  match x with
  | S754_zero s | S754_infinity s | S754_finite s _ _ => s
  | S754_nan => false
  end.

(** [isinf] and [isfinite] *)
Definition isinf (x : float) : bool :=
  match x with
  | S754_infinity _ => true
  | _ => false
  end.

Definition isfinite (x : float) : bool :=
  match x with
  | S754_zero _ | S754_finite _ _ _ => true
  | _ => false
  end.

#[export] Instance float_inhabited : Inhabited float := populate nan.

(** [x.total_seconds() / 3600]: the whole seconds as a float, divided by
    3600.0. *)
Definition to_hours (x : timedelta) : float :=
  fdiv (float_of_Z x) (float_of_Z 3600).

(** Lines 42-51: the hours a day, indexed by date. *)
Definition study_per_day_hours (df : list Session)
  : result (list (Z * float)) :=
  local (study_per_day df) ≫= fun per_day : list (Z * timedelta) =>
  Ok (prod_map id to_hours <$> per_day).

(** ** Rolling means (lines 54-55)

    [series.rolling(window).mean()] with its default [min_periods = window],
    as pandas 2 computes it.  The infinities of the series are first replaced
    by NaN.  Then ([roll_mean] of its window aggregations) a running sum and
    a count of observations slide along the series: the value that leaves the
    window is subtracted and the one that enters it is added, each by a
    compensated (Kahan) addition with a compensation term of its own.  Where
    the count has reached [min_periods] the sum is divided by the count,
    elsewhere NaN is written.  The quotient is corrected in two cases: a
    window of one repeated value gives that value, and a quotient whose sign
    no value of the window has is replaced by zero.  For a window of 2 or
    more (the program uses 7 and 30) consecutive windows overlap, and pandas
    takes this sliding path at every position after the first. *)
Record mean_state : Set := {
  nobs : Z;
  neg_ct : Z;
  sum_x : float;
  compensation_add : float;
  compensation_remove : float;
  num_consecutive_same_value : Z;
  prev_value : float
}.

(** [add_mean]; a NaN is not an observation. *)
Definition add_mean (val : float) (st : mean_state) : mean_state :=
  if feq val val then
    let y := fsub val (compensation_add st) in
    let t := fadd (sum_x st) y in
    {| nobs := nobs st + 1;
       neg_ct := if signbit val then neg_ct st + 1 else neg_ct st;
       sum_x := t;
       compensation_add := fsub (fsub t (sum_x st)) y;
       compensation_remove := compensation_remove st;
       num_consecutive_same_value :=
         if feq val (prev_value st) then num_consecutive_same_value st + 1
         else 1;
       prev_value := val |}
  else st.

(** [remove_mean] *)
Definition remove_mean (val : float) (st : mean_state) : mean_state :=
  if feq val val then
    let y := fsub (fneg val) (compensation_remove st) in
    let t := fadd (sum_x st) y in
    {| nobs := nobs st - 1;
       neg_ct := if signbit val then neg_ct st - 1 else neg_ct st;
       sum_x := t;
       compensation_add := compensation_add st;
       compensation_remove := fsub (fsub t (sum_x st)) y;
       num_consecutive_same_value := num_consecutive_same_value st;
       prev_value := prev_value st |}
  else st.

(** [calc_mean]; [None] is the NaN of a window with too few observations. *)
Definition calc_mean (minp : Z) (st : mean_state) : option float :=
  if bool_decide (minp <= nobs st /\ 0 < nobs st) then
    let result := fdiv (sum_x st) (float_of_Z (nobs st)) in
    Some (if bool_decide (nobs st <= num_consecutive_same_value st)
          then prev_value st
          else if bool_decide (neg_ct st = 0) && flt result (float_of_Z 0)
          then float_of_Z 0
          else if bool_decide (neg_ct st = nobs st) && flt (float_of_Z 0) result
          then float_of_Z 0
          else result)
  else None.

(** The loop over the positions: [i] is the position, [entering] the values
    from position [i] on. *)
Fixpoint roll_mean (window : nat) (values : list float) (i : nat)
    (st : mean_state) (entering : list float) : list (option float) :=
  match entering with
  | [] => []
  | x :: entering' =>
      let st :=
        if bool_decide (window <= i)%nat
        then remove_mean (values !!! (i - window)%nat) st else st in
      let st := add_mean x st in
      calc_mean (Z.of_nat window) st
      :: roll_mean window values (S i) st entering'
  end.

(** [_prep_values]: the infinities become NaN. *)
Definition prep_values (values : list float) : list float :=
  (fun x => if isinf x then nan else x) <$> values.

Definition rolling_mean (window : nat) (values : list float)
  : list (option float) :=
  let values := prep_values values in
  roll_mean window values 0
    {| nobs := 0; neg_ct := 0; sum_x := float_of_Z 0;
       compensation_add := float_of_Z 0; compensation_remove := float_of_Z 0;
       num_consecutive_same_value := 0; prev_value := values !!! 0%nat |}
    values.

(** ** The density matrix *)

(** [pd.DataFrame(0, index=range(7), columns=range(bins))]: rows are weekdays,
    columns half-hour bins.  Cells count visited minutes. *)
Abbreviation Heat := (list (list nat)).

Definition bins : nat := 48.
Definition heat0 : Heat := replicate 7 (replicate bins 0%nat).

Definition label (i : Z) : option nat :=
  if decide (0 <= i) then Some (Z.to_nat i) else None.

Definition heat_at (heat : Heat) (wd bin : Z) : option nat :=
  w ← label wd; b ← label bin; row ← heat !! w; row !! b.

(** [heat.at[weekday, bin_idx] += 1]; a label outside the frame is a
    [KeyError]. *)
Definition heat_at_incr (heat : Heat) (wd bin : Z) : result Heat :=
  match label wd, label bin with
  | Some w, Some b =>
      match heat !! w with
      | Some row =>
          match row !! b with
          | Some c => Ok (<[w := <[b := S c]> row]> heat)
          | None => Raise KeyError
          end
      | None => Raise KeyError
      end
  | _, _ => Raise KeyError
  end.

Definition row_total (row : list nat) : nat := sum_list row.
Definition heat_total (heat : Heat) : nat := sum_list (row_total <$> heat).

(** ** The minute walk (lines 106-122) *)

Definition bin_idx (cursor : datetime) : Z :=
  (hour cursor * 60 + minute cursor) `div` 30.

(** The inner loop [while cursor <= seg_end]. *)
Equations? walk_minutes (heat : Heat) (cursor seg_end : datetime) : result Heat
  by wf (Z.to_nat (seg_end - cursor + 1)) lt :=
  walk_minutes heat cursor seg_end with decide (cursor <= seg_end) => {
    | left _ with heat_at_incr heat (weekday cursor) (bin_idx cursor) => {
        | Ok heat' := walk_minutes heat' (cursor + 60) seg_end
        | Raise e := Raise e }
    | right _ := Ok heat }.
Proof. lia. Qed.

(** [datetime(start_time.year, start_time.month, start_time.day, 23, 59, 59)]:
    the last second of the calendar day of [start_time].  It is given here by
    the ordinal of that day; [day_end_civil] below shows that going through
    year, month and day gives the same instant. *)
Definition day_end (start_time : datetime) : datetime :=
  combine (toordinal start_time) 23 59 59.

(** The outer loop [while start_time < end_time]. *)
Equations? walk_session (heat : Heat) (start_time end_time : datetime)
  : result Heat by wf (Z.to_nat (end_time - start_time)) lt :=
  walk_session heat start_time end_time with decide (start_time < end_time) => {
    | left _ with walk_minutes heat start_time
                    (Z.min end_time (day_end start_time)) => {
        | Ok heat' :=
            walk_session heat'
              (Z.min end_time (day_end start_time) + 1) end_time
        | Raise e := Raise e }
    | right _ := Ok heat }.
Proof.
  unfold day_end, combine, toordinal.
  pose proof (Z.div_mod start_time 86400 ltac:(lia)).
  pose proof (Z.mod_pos_bound start_time 86400 ltac:(lia)). lia.
Qed.

(** [for _, row in df_recent.iterrows()] *)
Fixpoint accumulate (heat : Heat) (rows : list Session) : result Heat :=
  match rows with
  | [] => Ok heat
  | row :: rows' =>
      heat' ← walk_session heat (Start_Time row) (End_Time row);
      accumulate heat' rows'
  end.

(** ** The recency filter (lines 96-99) *)

(** A reading of the clock, [datetime.now()]. *)
Record clock : Set := Clock {
  now_year : Z;
  now_month : Z;
  now_day : Z;
  now_hour : Z;
  now_minute : Z;
  now_second : Z;
  now_microsecond : Z
}.

Definition x_months : Z := 4.

(** [today - pd.DateOffset(months=x_months)]: the month goes back, the year
    with it when the month runs out, and the day is cut to the length of the
    month reached; the time of day stays.  (The clock is taken to read a year
    after year 1.) *)
Definition x_months_ago (today : clock) : clock :=
  let month := now_month today - x_months in
  let year :=
    if decide (month < 1) then now_year today - 1 else now_year today in
  let month := if decide (month < 1) then month + 12 else month in
  let day := Z.min (days_in_month year month) (now_day today) in
  Clock year month day (now_hour today) (now_minute today) (now_second today)
    (now_microsecond today).

Definition clock_seconds (c : clock) : datetime :=
  combine (ymd2ord (now_year c) (now_month c) (now_day c))
    (now_hour c) (now_minute c) (now_second c).

(** [start_time >= c] for a whole-second [start_time]. *)
Definition at_or_after (start_time : datetime) (c : clock) : bool :=
  if decide (now_microsecond c <= 0)
  then bool_decide (clock_seconds c <= start_time)
  else bool_decide (clock_seconds c < start_time).

(** [df[df["Start Time"] >= x_months_ago]].  A frame built from no records
    has no columns, and naming one is a [KeyError]. *)
Definition recent (today : clock) (df : list Session)
  : result (list Session) :=
  match df with
  | [] => Raise KeyError
  | _ =>
      let x_months_ago := x_months_ago today in
      Ok (filter (fun row => at_or_after (Start_Time row) x_months_ago) df)
  end.

(** ** Normalisation (lines 124-133) *)

(** [(df_recent["Start Time"].max() - df_recent["Start Time"].min()).days / 7];
    on an empty column [max] and [min] are NaT, and the quotient is NaN. *)
Definition weeks (df_recent : list Session) : float :=
  match Start_Time <$> df_recent with
  | [] => nan
  | t :: ts =>
      let days := (foldr Z.max t ts - foldr Z.min t ts) `div` 86400 in
      fdiv (float_of_Z days) (float_of_Z 7)
  end.

(** [weeks > 0], false on NaN. *)
Definition weeks_positive (w : float) : bool := flt (float_of_Z 0) w.

Abbreviation Density := (list (list float)).

Definition cells {A B} (f : A -> B) (m : list (list A)) : list (list B) :=
  (fun row : list A => f <$> row) <$> m.

(** [heat / 60.0], [heat / weeks] when [weeks > 0], [heat *= 60]: three
    roundings a cell, or two. *)
Definition normalise (counts : Heat) (w : float) : Density :=
  let heat :=
    cells (fun c => fdiv (float_of_Z (Z.of_nat c)) (float_of_Z 60)) counts in
  let heat :=
    if weeks_positive w then cells (fun x => fdiv x w) heat else heat in
  cells (fun x => fmul x (float_of_Z 60)) heat.

(** The binner: lines 96-133. *)
Definition build_density (today : clock) (df : list Session) : result Density :=
  df_recent ← recent today df;
  heat ← accumulate heat0 df_recent;
  Ok (normalise heat (weeks df_recent)).

(** ** The weekday-by-month table (lines 72-81)

    [groupby(["Weekday", "YearMonth"])["Study Hours"].mean().unstack()]: the
    cell of a weekday and a month of a year is the mean of the hours of the
    days of the series with that weekday in that month, as pandas 2 computes
    it ([group_mean]): the days are taken in the order of the series, the
    hours of a group are added by compensated (Kahan) addition, and the sum is
    divided by the number of days of the group.  A combination without a day
    has no cell (NaN in the unstacked frame).  The index of the series holds
    the midnights of its days. *)
Definition weekday_month_key (d : Z) : Z * (Z * Z) :=
  let t := combine d 0 0 0 in (weekday t, (year t, month t)).

(** The state of a group: observations, sum, compensation. *)
Definition group_add (val : float) (st : Z * float * float)
  : Z * float * float :=
  let '(nobs, sumx, compensation) := st in
  if feq val val then
    let y := fsub val compensation in
    let t := fadd sumx y in
    let compensation := fsub (fsub t sumx) y in
    (nobs + 1, t,
     if feq compensation compensation then compensation else float_of_Z 0)
  else st.

Definition weekday_month_avg (hours : list (Z * float))
  : gmap (Z * (Z * Z)) float :=
  let groups : gmap (Z * (Z * Z)) (Z * float * float) :=
    foldl (fun groups '(d, h) =>
             <[weekday_month_key d :=
                 group_add h
                   (default (0, float_of_Z 0, float_of_Z 0)
                      (groups !! weekday_month_key d))]> groups)
          ∅ hours in
  (fun '(nobs, sumx, _) =>
     if bool_decide (nobs = 0) then nan else fdiv sumx (float_of_Z nobs))
  <$> groups.

(** ** The whole analysis

    What [analyze_study_data] computes, in the order it computes it, and what
    it hands to the three charts; the calls that draw them are left out. *)
Record Analysis : Type := {
  daily_series : list (Z * float);
  smoothed_7d : list (option float);
  smoothed_30d : list (option float);
  weekday_month_table : gmap (Z * (Z * Z)) float;
  density_matrix : Density
}.

Definition analyze_study_data (data : list string) (today : clock)
  : result Analysis :=
  df ← load data [];
  study_per_day_hours ← study_per_day_hours df;
  let moving_avg_7d := rolling_mean 7 (snd <$> study_per_day_hours) in
  let moving_avg_30d := rolling_mean 30 (snd <$> study_per_day_hours) in
  let weekday_month_avg := weekday_month_avg study_per_day_hours in
  heat ← build_density today df;
  Ok {| daily_series := study_per_day_hours;
        smoothed_7d := moving_avg_7d; smoothed_30d := moving_avg_30d;
        weekday_month_table := weekday_month_avg; density_matrix := heat |}.

(** ** The visited minutes

    The cursors at which the walk increments a cell, in order: the same two
    loops, collecting the cursor where the program updates the matrix. *)

Equations? visited_minutes (cursor seg_end : datetime) : list datetime
  by wf (Z.to_nat (seg_end - cursor + 1)) lt :=
  visited_minutes cursor seg_end with decide (cursor <= seg_end) => {
    | left _ := cursor :: visited_minutes (cursor + 60) seg_end
    | right _ := [] }.
Proof. lia. Qed.

Equations? visited (start_time end_time : datetime) : list datetime
  by wf (Z.to_nat (end_time - start_time)) lt :=
  visited start_time end_time with decide (start_time < end_time) => {
    | left _ :=
        visited_minutes start_time (Z.min end_time (day_end start_time))
        ++ visited (Z.min end_time (day_end start_time) + 1) end_time
    | right _ := [] }.
Proof.
  unfold day_end, combine, toordinal.
  pose proof (Z.div_mod start_time 86400 ltac:(lia)).
  pose proof (Z.mod_pos_bound start_time 86400 ltac:(lia)). lia.
Qed.

(** The update of line 119 at one cursor, and at a list of them. *)
Definition visit (heat : Heat) (cursor : datetime) : result Heat :=
  heat_at_incr heat (weekday cursor) (bin_idx cursor).

Fixpoint visit_all (heat : Heat) (cursors : list datetime) : result Heat :=
  match cursors with
  | [] => Ok heat
  | cursor :: cursors' => heat' ← visit heat cursor; visit_all heat' cursors'
  end.

(** How many of the cursors fall in the cell of weekday [wd] and bin [bin]. *)
Definition cell_count (cursors : list datetime) (wd bin : Z) : nat :=
  length (filter (fun t => weekday t = wd /\ bin_idx t = bin) cursors).

(** A frame of 7 rows of 48 cells. *)
Definition shaped (heat : Heat) : Prop :=
  length heat = 7%nat /\ Forall (fun row => length row = bins) heat.

(** The number of minutes the walk visits between [start_time] and
    [end_time], in closed form. *)
Definition minutes_visited (start_time end_time : datetime) : Z :=
  if decide (end_time <= start_time) then 0
  else if decide (toordinal start_time = toordinal end_time)
  then (end_time - start_time) `div` 60 + 1
  else end_time `div` 60 - start_time `div` 60
       + (if decide (end_time `mod` 86400 = 0) then 0 else 1).

(** The inclusive minute count of the specification,
    [floor((end - start) in minutes) + 1]. *)
Definition inclusive_minutes (start_time end_time : datetime) : Z :=
  (end_time - start_time) `div` 60 + 1.

(** Sessions on which the walk and the inclusive count agree: a positive
    length, and either one calendar day, or a start on a whole minute with an
    end that is not 00:00:00. *)
Definition aligned (start_time end_time : datetime) : Prop :=
  start_time < end_time
  /\ (toordinal start_time = toordinal end_time
      \/ (start_time `mod` 60 = 0 /\ end_time `mod` 86400 <> 0)).

Definition sum_Z (l : list Z) : Z := foldr Z.add 0 l.

(** Some fixed inputs: a clock reading of 2024-02-01 12:00:00, and sessions
    around the midnight between Monday 2024-01-01 and Tuesday 2024-01-02. *)
Definition feb_2024 : clock := Clock 2024 2 1 12 0 0 0.

Definition session (start_time end_time : datetime) (duration : timedelta)
  : Session :=
  {| Date := toordinal start_time; Start_Time := start_time;
     End_Time := end_time; Duration := duration |}.

Definition jan1 (h m s : Z) : datetime := datetime_of 2024 1 1 h m s.
Definition jan2 (h m s : Z) : datetime := datetime_of 2024 1 2 h m s.

(** The fields of a line, and the reading of the loader the specification
    gives: the records of the accepted lines, in order, or the first error
    among them. *)
Definition fields (line : string) : list string := split "," (strip line).

Fixpoint traverse {A B} (f : A -> result B) (l : list A) : result (list B) :=
  match l with
  | [] => Ok []
  | a :: l' => b ← f a; bs ← traverse f l'; Ok (b :: bs)
  end.

(** The total duration of the sessions of [df] that start on day [d]. *)
Definition duration_on (df : list Session) (d : Z) : timedelta :=
  sum_Z (Duration <$> filter (fun row => toordinal (Start_Time row) = d) df).




(** A float that is zero or a number below [2 ^ size] in magnitude. *)
Definition below (size : Z) (x : float) : Prop :=
  match x with
  | S754_zero _ => True
  | S754_finite _ m e => Zdigits2 (Z.pos m) + e <= size /\ e <= 971
  | _ => False
  end.

(** The all-zero matrix of average minutes. *)
Definition zero_density : Density :=
  replicate 7 (replicate bins (float_of_Z 0)).

(** What the binner reads of a session. *)
Definition interval (row : Session) : datetime * datetime :=
  (Start_Time row, End_Time row).

(** ** Further notions

    What the properties beyond the claims are stated with: well-written
    durations, the commas of a line, and calendar clocks. *)

(** [all(P(c) for c in s)] *)
Fixpoint all (P : ascii -> bool) (s : string) : bool :=
  match s with
  | EmptyString => true
  | String c s' => P c && all P s'
  end.



(** [s.count(sep)] for a [sep] of one character. *)
Fixpoint count (sep : ascii) (s : string) : nat :=
  match s with
  | EmptyString => 0
  | String c s' => (if Ascii.eqb c sep then 1 else 0) + count sep s'
  end.




(** A clock that reads a day of the calendar. *)
Definition well_formed (c : clock) : Prop :=
  1 <= now_month c <= 12
  /\ 1 <= now_day c <= days_in_month (now_year c) (now_month c).


(** * Properties *)

Ltac div_mod_lia := Z.div_mod_to_equations; lia.

(** ** The calendar *)

Ltac eval_tables :=
  repeat match goal with
    | |- context [@lookup_total ?K ?A ?M ?I (Z.to_nat ?k) ?l] =>
        let v := eval vm_compute in (@lookup_total K A M I (Z.to_nat k) l) in
        change (@lookup_total K A M I (Z.to_nat k) l) with v
    | H : context [@lookup_total ?K ?A ?M ?I (Z.to_nat ?k) ?l] |- _ =>
        let v := eval vm_compute in (@lookup_total K A M I (Z.to_nat k) l) in
        change (@lookup_total K A M I (Z.to_nat k) l) with v in H
    | |- context [bool_decide ?P] =>
        let v := eval vm_compute in (bool_decide P) in
        change (bool_decide P) with v
    | H : context [bool_decide ?P] |- _ =>
        let v := eval vm_compute in (bool_decide P) in
        change (bool_decide P) with v in H
    end; cbn [andb orb negb] in *.

Lemma days_before_year_cycles a b c d :
  0 <= b <= 3 -> 0 <= c <= 24 -> 0 <= d <= 3 ->
  days_before_year (a * 400 + 1 + b * 100 + c * 4 + d)
  = 146097 * a + 36524 * b + 1461 * c + 365 * d.
Proof. intros. unfold days_before_year. div_mod_lia. Qed.

Lemma is_leap_cycles a b c d :
  0 <= b <= 3 -> 0 <= c <= 24 -> 0 <= d <= 3 ->
  is_leap (a * 400 + 1 + b * 100 + c * 4 + d)
  = bool_decide (d = 3) && (negb (bool_decide (c = 24)) || bool_decide (b = 3)).
Proof.
  intros. unfold is_leap.
  repeat case_bool_decide; simpl; try done; exfalso; div_mod_lia.
Qed.

Lemma month_estimate r : 0 <= r <= 364 -> 1 <= Z.shiftr (r + 50) 5 <= 12.
Proof.
  intros. rewrite Z.shiftr_div_pow2 by lia. change (2 ^ 5) with 32.
  div_mod_lia.
Qed.

Lemma days_before_month_step y m r :
  1 <= m <= 12 -> 0 <= r ->
  let preceding :=
    DAYS_BEFORE_MONTH !!! Z.to_nat m
    + (if bool_decide (2 < m) && is_leap y then 1 else 0) in
  (if decide (r < preceding)
   then days_before_month y (m - 1)
        + (r - (preceding
                - (DAYS_IN_MONTH !!! Z.to_nat (m - 1)
                   + (if bool_decide (m - 1 = 2) && is_leap y
                      then 1 else 0))) + 1)
   else days_before_month y m + (r - preceding + 1))
  = r + 1.
Proof.
  intros Hm Hr. unfold days_before_month.
  assert (m = 1 \/ m = 2 \/ m = 3 \/ m = 4 \/ m = 5 \/ m = 6 \/ m = 7
          \/ m = 8 \/ m = 9 \/ m = 10 \/ m = 11 \/ m = 12) as Hcases by lia.
  destruct (is_leap y);
    repeat (destruct Hcases as [->|Hcases]); try subst m;
    case_decide; eval_tables; lia.
Qed.

(** The ordinal of the year, month and day of an ordinal is that ordinal. *)
Lemma ymd2ord_ord2ymd n :
  ymd2ord (ord2ymd n).1.1 (ord2ymd n).1.2 (ord2ymd n).2 = n.
Proof.
  unfold ord2ymd.
  set (n0 := n - 1).
  set (a := n0 `div` 146097). set (r1 := n0 `mod` 146097).
  set (b := r1 `div` 36524). set (r2 := r1 `mod` 36524).
  set (c := r2 `div` 1461). set (r3 := r2 `mod` 1461).
  set (d := r3 `div` 365). set (r := r3 `mod` 365).
  assert (n0 = 146097 * a + r1 /\ 0 <= r1 < 146097) as [Hn0 Hr1]
    by (subst a r1; div_mod_lia).
  assert (r1 = 36524 * b + r2 /\ 0 <= r2 < 36524) as [Hb Hr2]
    by (subst b r2; div_mod_lia).
  assert (r2 = 1461 * c + r3 /\ 0 <= r3 < 1461) as [Hc Hr3]
    by (subst c r3; div_mod_lia).
  assert (r3 = 365 * d + r /\ 0 <= r < 365) as [Hd Hr]
    by (subst d r; div_mod_lia).
  clearbody a r1 b r2 c r3 d r.
  case_bool_decide as Hlast; cbn [fst snd].
  - unfold ymd2ord, days_before_month.
    destruct (decide (b = 4)) as [Hb4|Hb4].
    + replace (a * 400 + 1 + b * 100 + c * 4 + d - 1)
        with (a * 400 + 1 + 3 * 100 + 24 * 4 + 3) by lia.
      rewrite days_before_year_cycles, is_leap_cycles by lia.
      eval_tables. lia.
    + replace (a * 400 + 1 + b * 100 + c * 4 + d - 1)
        with (a * 400 + 1 + b * 100 + c * 4 + 3) by lia.
      rewrite days_before_year_cycles, is_leap_cycles by lia.
      rewrite (bool_decide_eq_false_2 (c = 24)) by lia.
      eval_tables. lia.
  - rewrite <- (is_leap_cycles a b c d) by lia.
    set (y := a * 400 + 1 + b * 100 + c * 4 + d).
    pose proof (month_estimate r ltac:(lia)) as Hm.
    pose proof (days_before_month_step y (Z.shiftr (r + 50) 5) r Hm ltac:(lia))
      as Hstep.
    cbv zeta in Hstep.
    assert (days_before_year y = n0 - r) as Hy
      by (subst y; rewrite days_before_year_cycles; lia).
    case_decide; cbn [fst snd]; unfold ymd2ord; rewrite Hy; lia.
Qed.

(** Line 111 as the program writes it. *)
Lemma day_end_civil t :
  datetime_of (year t) (month t) (day t) 23 59 59 = day_end t.
Proof.
  unfold datetime_of, year, month, day, day_end.
  by rewrite ymd2ord_ord2ymd.
Qed.

(** ** The walk and the visited minutes *)

Lemma bind_Ok {A B} (f : A -> result B) (a : A) : Ok a ≫= f = f a.
Proof. reflexivity. Qed.

Lemma bind_Raise {A B} (f : A -> result B) (e : exn) : Raise e ≫= f = Raise e.
Proof. reflexivity. Qed.

Lemma visit_all_app heat cs1 cs2 :
  visit_all heat (cs1 ++ cs2)
  = visit_all heat cs1 ≫= fun heat' => visit_all heat' cs2.
Proof.
  revert heat. induction cs1 as [|c cs1 IH]; intros heat; simpl; [done|].
  destruct (visit heat c) as [heat'|e]; simpl; [apply IH | done].
Qed.

Lemma walk_minutes_visited heat cursor seg_end :
  walk_minutes heat cursor seg_end
  = visit_all heat (visited_minutes cursor seg_end).
Proof.
  funelim (walk_minutes heat cursor seg_end); simp visited_minutes.
  all: repeat match goal with
         | H : decide _ = _ |- _ => rewrite H; clear H
         end; simpl; unfold visit.
  all: repeat match goal with
         | H : heat_at_incr _ _ _ = _ |- _ => rewrite H; clear H
         end; simpl.
  all: done.
Qed.

Lemma walk_session_visited heat start_time end_time :
  walk_session heat start_time end_time
  = visit_all heat (visited start_time end_time).
Proof.
  funelim (walk_session heat start_time end_time); simp visited.
  all: repeat match goal with
         | H : decide _ = _ |- _ => rewrite H; clear H
         end; simpl; rewrite ?visit_all_app, <- ?walk_minutes_visited.
  all: repeat match goal with
         | H : walk_minutes _ _ _ = _ |- _ => rewrite H; clear H
         end; simpl.
  all: done.
Qed.

Lemma accumulate_visited heat rows :
  accumulate heat rows
  = visit_all heat
      (concat ((fun row => visited (Start_Time row) (End_Time row)) <$> rows)).
Proof.
  revert heat. induction rows as [|row rows IH]; intros heat; simpl; [done|].
  rewrite visit_all_app, walk_session_visited.
  destruct (visit_all heat _); simpl; [apply IH | done].
Qed.

(** ** Cells stay in the frame *)

Lemma weekday_range t : 0 <= weekday t < 7.
Proof. unfold weekday. apply Z.mod_pos_bound. lia. Qed.

Lemma bin_idx_range t : 0 <= bin_idx t < 48.
Proof. unfold bin_idx, hour, minute. div_mod_lia. Qed.

Lemma sum_list_insert (l : list nat) i c c' :
  l !! i = Some c -> (sum_list (<[i := c']> l) + c = sum_list l + c')%nat.
Proof.
  revert i. induction l as [|x l IH]; intros [|i]; simpl; try done.
  - intros [= ->]. lia.
  - intros H. specialize (IH _ H). lia.
Qed.

Lemma heat_total_bump (heat : Heat) w b row c :
  heat !! w = Some row -> row !! b = Some c ->
  heat_total (<[w := <[b := S c]> row]> heat) = S (heat_total heat).
Proof.
  intros Hw Hb. unfold heat_total. rewrite list_fmap_insert.
  assert ((row_total <$> heat) !! w = Some (row_total row)) as Hw'
    by (by rewrite list_lookup_fmap, Hw).
  pose proof (sum_list_insert _ _ _ (row_total (<[b := S c]> row)) Hw') as H1.
  pose proof (sum_list_insert _ _ _ (S c) Hb) as H2.
  unfold row_total in *. lia.
Qed.

Lemma shaped_bump (heat : Heat) w b row c :
  shaped heat -> heat !! w = Some row ->
  shaped (<[w := <[b := S c]> row]> heat).
Proof.
  intros [Hlen Hrows] Hw. split.
  - by rewrite length_insert.
  - apply Forall_insert; [done|]. rewrite length_insert.
    by apply (Forall_lookup_1 _ _ _ _ Hrows Hw).
Qed.

Lemma visit_shaped heat cursor :
  shaped heat ->
  exists heat', visit heat cursor = Ok heat' /\ shaped heat'
                /\ heat_total heat' = S (heat_total heat).
Proof.
  intros Hs. pose proof Hs as [Hlen Hrows].
  pose proof (weekday_range cursor) as Hw.
  pose proof (bin_idx_range cursor) as Hb.
  unfold visit, heat_at_incr, label.
  rewrite !decide_True by lia.
  destruct (lookup_lt_is_Some_2 heat (Z.to_nat (weekday cursor))) as [row Hrow];
    [lia|].
  rewrite Hrow.
  assert (length row = bins) as Hrl
    by apply (Forall_lookup_1 _ _ _ _ Hrows Hrow).
  destruct (lookup_lt_is_Some_2 row (Z.to_nat (bin_idx cursor))) as [c Hc];
    [unfold bins in Hrl; lia|].
  rewrite Hc. eexists. split; [done|]. split.
  - by apply shaped_bump.
  - by apply heat_total_bump.
Qed.

Lemma visit_all_shaped heat cursors :
  shaped heat ->
  exists heat', visit_all heat cursors = Ok heat' /\ shaped heat'
                /\ heat_total heat' = (heat_total heat + length cursors)%nat.
Proof.
  revert heat. induction cursors as [|c cs IH]; intros heat Hs; simpl.
  - exists heat. split; [done|]. split; [done|]. lia.
  - destruct (visit_shaped heat c Hs) as (h1 & -> & Hs1 & Ht1). simpl.
    destruct (IH h1 Hs1) as (h2 & -> & Hs2 & Ht2).
    exists h2. split; [done|]. split; [done|]. lia.
Qed.

Lemma heat0_shaped : shaped heat0.
Proof.
  split; [done|]. unfold heat0. apply Forall_replicate.
  by rewrite length_replicate.
Qed.

Lemma heat0_total : heat_total heat0 = 0%nat.
Proof. reflexivity. Qed.

(** ** What the walk leaves in a cell *)

Lemma visit_cell heat cursor heat' wd bin :
  visit heat cursor = Ok heat' ->
  heat_at heat' wd bin
  = if decide (weekday cursor = wd /\ bin_idx cursor = bin)
    then S <$> heat_at heat wd bin else heat_at heat wd bin.
Proof.
  pose proof (weekday_range cursor) as Hw.
  pose proof (bin_idx_range cursor) as Hb.
  unfold visit, heat_at_incr, heat_at, label.
  rewrite (decide_True (P := 0 <= weekday cursor)) by lia.
  rewrite (decide_True (P := 0 <= bin_idx cursor)) by lia.
  destruct (heat !! Z.to_nat (weekday cursor)) as [row|] eqn:Hrow; [|done].
  destruct (row !! Z.to_nat (bin_idx cursor)) as [c|] eqn:Hc; [|done].
  intros [= <-].
  destruct (decide (weekday cursor = wd /\ bin_idx cursor = bin))
    as [[<- <-]|Hne].
  - rewrite !decide_True by lia. simpl.
    rewrite list_lookup_insert_eq by (by eapply lookup_lt_Some).
    rewrite Hrow. simpl.
    rewrite list_lookup_insert_eq by (by eapply lookup_lt_Some).
    by rewrite Hc.
  - destruct (decide (0 <= wd)) as [Hwd|]; [|done].
    destruct (decide (0 <= bin)) as [Hbin|]; [|done].
    simpl.
    destruct (decide (Z.to_nat (weekday cursor) = Z.to_nat wd)) as [Hweq|Hwne];
      [|by rewrite list_lookup_insert_ne].
    rewrite <- Hweq, list_lookup_insert_eq by (by eapply lookup_lt_Some).
    rewrite Hrow. simpl. rewrite list_lookup_insert_ne by lia. done.
Qed.

Lemma visit_all_cells heat cursors heat' wd bin :
  visit_all heat cursors = Ok heat' ->
  heat_at heat' wd bin
  = (fun n => (n + cell_count cursors wd bin)%nat) <$> heat_at heat wd bin.
Proof.
  revert heat. induction cursors as [|c cs IH]; intros heat; simpl.
  - intros [= <-]. destruct (heat_at heat wd bin); simpl; [|done].
    f_equal. unfold cell_count. simpl. lia.
  - destruct (visit heat c) as [h1|] eqn:Hv; simpl; [|done].
    intros Hrest. rewrite (IH _ Hrest), (visit_cell _ _ _ wd bin Hv).
    unfold cell_count. rewrite filter_cons.
    destruct (decide (weekday c = wd /\ bin_idx c = bin)); [|done].
    destruct (heat_at heat wd bin); simpl; [|done]. f_equal. lia.
Qed.

Lemma cell_count_pos cursors t :
  t ∈ cursors -> (1 <= cell_count cursors (weekday t) (bin_idx t))%nat.
Proof.
  intros Hin. unfold cell_count.
  assert (t ∈ filter (fun t' => weekday t' = weekday t
                               /\ bin_idx t' = bin_idx t) cursors) as Hf
    by (by apply list_elem_of_filter).
  destruct (filter _ cursors); [by apply elem_of_nil in Hf | simpl; lia].
Qed.

(** The matrix after the walk: every cell holds the number of visited
    minutes of its weekday and half hour. *)
Lemma accumulate_cells rows counts wd bin :
  0 <= wd < 7 -> 0 <= bin < 48 ->
  accumulate heat0 rows = Ok counts ->
  heat_at counts wd bin
  = Some (cell_count
            (concat ((fun row => visited (Start_Time row) (End_Time row))
                     <$> rows)) wd bin).
Proof.
  intros Hwd Hbin. rewrite accumulate_visited. intros Hacc.
  rewrite (visit_all_cells _ _ _ wd bin Hacc).
  replace (heat_at heat0 wd bin) with (Some 0%nat); [done|].
  unfold heat_at, label, heat0. rewrite !decide_True by lia.
  cbn [mbind option_bind]. rewrite lookup_replicate_2 by lia.
  cbn [mbind option_bind]. by rewrite lookup_replicate_2 by (unfold bins; lia).
Qed.

(** ** Counting the visited minutes *)

Lemma length_visited_minutes cursor seg_end :
  Z.of_nat (length (visited_minutes cursor seg_end))
  = if decide (cursor <= seg_end) then (seg_end - cursor) `div` 60 + 1 else 0.
Proof.
  funelim (visited_minutes cursor seg_end); clear Heq Heqcall.
  - rewrite (decide_True _ _ l). simpl length.
    rewrite Nat2Z.inj_succ, H. case_decide; div_mod_lia.
  - by rewrite (decide_False _ _ n).
Qed.

Lemma length_visited start_time end_time :
  Z.of_nat (length (visited start_time end_time))
  = minutes_visited start_time end_time.
Proof.
  funelim (visited start_time end_time).
  - rewrite length_app, Nat2Z.inj_add, H, length_visited_minutes.
    unfold minutes_visited, day_end, combine, toordinal.
    repeat case_decide; div_mod_lia.
  - unfold minutes_visited. rewrite decide_True by lia. done.
Qed.

Lemma visited_minutes_eq cursor seg_end :
  visited_minutes cursor seg_end
  = if decide (cursor <= seg_end)
    then cursor :: visited_minutes (cursor + 60) seg_end else [].
Proof.
  etransitivity; [apply visited_minutes_equation_1|]. by destruct (decide _).
Qed.

Lemma visited_eq start_time end_time :
  visited start_time end_time
  = if decide (start_time < end_time)
    then visited_minutes start_time (Z.min end_time (day_end start_time))
         ++ visited (Z.min end_time (day_end start_time) + 1) end_time
    else [].
Proof. etransitivity; [apply visited_equation_1|]. by destruct (decide _). Qed.

Lemma walk_session_eq heat start_time end_time :
  walk_session heat start_time end_time
  = if decide (start_time < end_time)
    then walk_minutes heat start_time (Z.min end_time (day_end start_time))
         ≫= fun heat' =>
              walk_session heat'
                (Z.min end_time (day_end start_time) + 1) end_time
    else Ok heat.
Proof.
  etransitivity; [apply walk_session_equation_1|].
  destruct (decide _); [|done]. simpl. by destruct (walk_minutes _ _ _).
Qed.

Lemma start_le_day_end t : t <= day_end t.
Proof. unfold day_end, combine, toordinal. div_mod_lia. Qed.

Lemma visited_head start_time end_time :
  start_time < end_time -> start_time ∈ visited start_time end_time.
Proof.
  intros Hlt. rewrite visited_eq, (decide_True _ _ Hlt).
  apply elem_of_app. left. pose proof (start_le_day_end start_time).
  rewrite visited_minutes_eq, decide_True by lia. apply list_elem_of_here.
Qed.

Lemma visited_midnights start_time end_time k :
  start_time < combine k 0 0 0 < end_time ->
  combine k 0 0 0 ∈ visited start_time end_time.
Proof.
  funelim (visited start_time end_time); intros [Hs He]; [|lia].
  clear Heq Heqcall. apply elem_of_app. right.
  assert (day_end start_time + 1 <= combine k 0 0 0) as Hnext.
  { revert Hs. unfold day_end, combine, toordinal. div_mod_lia. }
  rewrite Z.min_r in H |- * by lia.
  destruct (decide (day_end start_time + 1 = combine k 0 0 0)) as [->|Hne].
  - by apply visited_head.
  - apply H. lia.
Qed.

(** ** C1: sessions of length zero *)

(** C1, as amended: a session whose start equals its end visits no minute
    and leaves every cell of the matrix as it was; the guard of the outer
    loop, [start_time < end_time], is false at once. *)
Theorem zero_length_session_visits_nothing (heat : Heat) (row : Session) :
  Start_Time row = End_Time row ->
  visited (Start_Time row) (End_Time row) = []
  /\ walk_session heat (Start_Time row) (End_Time row) = Ok heat
  /\ accumulate heat [row] = Ok heat.
Proof.
  intros Heq. rewrite <- Heq.
  assert (visited (Start_Time row) (Start_Time row) = []) as Hv.
  { rewrite visited_eq, decide_False by lia. done. }
  split; [done|]. split.
  - by rewrite walk_session_visited, Hv.
  - simpl. by rewrite <- Heq, walk_session_visited, Hv.
Qed.

Lemma zero_length_session_visits_nothing_witness :
  let row := session (jan1 10 0 0) (jan1 10 0 0) 0 in
  Start_Time row = End_Time row
  /\ visited (Start_Time row) (End_Time row) = []
  /\ walk_session heat0 (Start_Time row) (End_Time row) = Ok heat0
  /\ accumulate heat0 [row] = Ok heat0.
Proof.
  intros row. split; [reflexivity|].
  apply (zero_length_session_visits_nothing heat0 row). reflexivity.
Defined.

(** C1 as stated fails: the session from 2024-01-01 10:00:00 to the same
    instant passes the recency filter, and the walk neither visits one minute
    nor raises the total of the matrix by one. *)
Lemma zero_length_session_counterexample :
  let row := session (jan1 10 0 0) (jan1 10 0 0) 0 in
  recent feb_2024 [row] = Ok [row]
  /\ length (visited (Start_Time row) (End_Time row)) <> 1%nat
  /\ ~ (exists heat',
          accumulate heat0 [row] = Ok heat'
          /\ heat_total heat' = S (heat_total heat0)).
Proof.
  intros row. split; [by vm_compute|]. split; [by vm_compute|].
  intros (heat' & Hacc & Htot).
  vm_compute in Hacc. injection Hacc as <-.
  vm_compute in Htot. discriminate Htot.
Qed.

(** ** C3: sessions crossing midnight *)

(** C3, as amended: when a session ends strictly after 00:00:00 of the day
    that follows its start, the walk handles the rest of the start day up to
    23:59:59, resumes one second later, at 00:00:00 of the next day, and
    visits that instant; more generally it visits every midnight strictly
    between start and end.  The session from 2024-01-01 23:45:00 to
    2024-01-02 00:15:00 adds 15 minutes to the Monday row and 16 to the
    Tuesday row. *)
Theorem midnight_split_resumes_at_midnight (heat : Heat)
    (start_time end_time : datetime) :
  day_end start_time + 1 < end_time ->
  walk_session heat start_time end_time
  = (walk_minutes heat start_time (day_end start_time)
     ≫= fun heat' => walk_session heat' (day_end start_time + 1) end_time)
  /\ day_end start_time + 1 = combine (toordinal start_time + 1) 0 0 0
  /\ walk_session heat start_time end_time
     = visit_all heat (visited start_time end_time)
  /\ day_end start_time + 1 ∈ visited start_time end_time
  /\ (forall k, start_time < combine k 0 0 0 < end_time ->
                combine k 0 0 0 ∈ visited start_time end_time)
  /\ (forall heat',
        walk_session heat start_time end_time = Ok heat' ->
        exists added,
          (1 <= added)%nat
          /\ heat_at heat' (weekday (day_end start_time + 1)) 0
             = (fun n => (n + added)%nat)
               <$> heat_at heat (weekday (day_end start_time + 1)) 0)
  /\ exists heat',
       walk_session heat0 (jan1 23 45 0) (jan2 0 15 0) = Ok heat'
       /\ weekday (jan1 23 45 0) = 0 /\ weekday (jan2 0 15 0) = 1
       /\ heat_at heat' 0 47 = Some 15%nat /\ heat_at heat' 1 0 = Some 16%nat
       /\ row_total <$> heat' = [15; 16; 0; 0; 0; 0; 0]%nat.
Proof.
  intros Hend.
  pose proof (start_le_day_end start_time) as Hday.
  assert (day_end start_time + 1 = combine (toordinal start_time + 1) 0 0 0)
    as Hmid by (unfold day_end, combine; lia).
  assert (day_end start_time + 1 ∈ visited start_time end_time) as Hin
    by (rewrite Hmid; apply visited_midnights; lia).
  split; [|split; [done|split; [|split; [done|split; [|split]]]]].
  - rewrite walk_session_eq, decide_True by lia. by rewrite Z.min_r by lia.
  - apply walk_session_visited.
  - apply visited_midnights.
  - intros heat' Hwalk. rewrite walk_session_visited in Hwalk.
    exists (cell_count (visited start_time end_time)
              (weekday (day_end start_time + 1)) 0).
    split; [|by apply visit_all_cells].
    replace 0 with (bin_idx (day_end start_time + 1)) at 1
      by (rewrite Hmid; unfold bin_idx, hour, minute, combine; div_mod_lia).
    by apply cell_count_pos.
  - eexists. split; [by vm_compute|]. by vm_compute.
Qed.

Lemma midnight_split_resumes_at_midnight_witness :
  day_end (jan1 23 45 0) + 1 < jan2 0 15 0
  /\ day_end (jan1 23 45 0) + 1 ∈ visited (jan1 23 45 0) (jan2 0 15 0).
Proof.
  assert (day_end (jan1 23 45 0) + 1 < jan2 0 15 0) as H
    by (vm_compute; reflexivity).
  split; [exact H|].
  apply (midnight_split_resumes_at_midnight heat0 _ _ H).
Defined.

(** C3 as stated fails at a session that ends exactly at midnight: from
    2024-01-01 23:45:00 to 2024-01-02 00:00:00 the interval reaches past
    23:59:59, the split is taken, and the resumed cursor, 00:00:00, is not
    visited; nothing is added to the Tuesday row. *)
Lemma midnight_split_counterexample :
  day_end (jan1 23 45 0) < jan2 0 0 0
  /\ day_end (jan1 23 45 0) + 1 = jan2 0 0 0
  /\ ~ (day_end (jan1 23 45 0) + 1 ∈ visited (jan1 23 45 0) (jan2 0 0 0))
  /\ exists heat',
       walk_session heat0 (jan1 23 45 0) (jan2 0 0 0) = Ok heat'
       /\ row_total <$> heat' = [15; 0; 0; 0; 0; 0; 0]%nat.
Proof.
  split; [by vm_compute|]. split; [by vm_compute|]. split.
  - intros Hin. apply list_elem_of_In in Hin. vm_compute in Hin.
    repeat (destruct Hin as [Hin|Hin]; [discriminate Hin|]). exact Hin.
  - eexists. split; by vm_compute.
Qed.

(** ** C4: the total of the matrix *)

Lemma aligned_minutes start_time end_time :
  aligned start_time end_time ->
  minutes_visited start_time end_time = inclusive_minutes start_time end_time.
Proof.
  unfold aligned, minutes_visited, inclusive_minutes, toordinal.
  intros [Hlt Hcase]. repeat case_decide; div_mod_lia.
Qed.

Lemma aligned_rows_minutes (rows : list Session) :
  Forall (fun row => aligned (Start_Time row) (End_Time row)) rows ->
  sum_Z ((fun row => minutes_visited (Start_Time row) (End_Time row)) <$> rows)
  = sum_Z ((fun row => inclusive_minutes (Start_Time row) (End_Time row))
           <$> rows).
Proof.
  induction 1 as [|row rows Hrow _ IH]; [done|].
  rewrite !fmap_cons. cbn [sum_Z foldr].
  rewrite (aligned_minutes _ _ Hrow). f_equal. apply IH.
Qed.

Lemma length_visited_rows (rows : list Session) :
  Z.of_nat
    (length (concat ((fun row => visited (Start_Time row) (End_Time row))
                     <$> rows)))
  = sum_Z ((fun row => minutes_visited (Start_Time row) (End_Time row))
           <$> rows).
Proof.
  induction rows as [|row rows IH]; [done|].
  rewrite !fmap_cons. cbn [concat sum_Z foldr].
  rewrite length_app, Nat2Z.inj_add, length_visited, IH. done.
Qed.

Lemma accumulate_total heat rows :
  shaped heat ->
  exists counts,
    accumulate heat rows = Ok counts /\ shaped counts
    /\ Z.of_nat (heat_total counts)
       = Z.of_nat (heat_total heat)
         + sum_Z ((fun row => minutes_visited (Start_Time row) (End_Time row))
                  <$> rows).
Proof.
  intros Hs. rewrite accumulate_visited.
  destruct (visit_all_shaped heat
              (concat ((fun row => visited (Start_Time row) (End_Time row))
                       <$> rows)) Hs) as (counts & Hv & Hs' & Ht).
  exists counts. split; [done|]. split; [done|].
  rewrite Ht, Nat2Z.inj_add, length_visited_rows. done.
Qed.

(** C4, as amended: before normalisation the cells of the matrix add up to
    the sum, over the filtered sessions, of the minutes the walk visits:
    none when the end is not after the start; [floor((end - start) in
    minutes) + 1] when start and end fall on one calendar day; otherwise the
    clock minutes from the start's to the end's, both counted, less one when
    the end is exactly 00:00:00.  On sessions of positive length that stay
    within a day, or start on a whole minute and do not end at 00:00:00, this
    is the inclusive minute count of the specification. *)
Theorem total_minutes_of_filtered_sessions (today : clock)
    (df df_recent : list Session) :
  recent today df = Ok df_recent ->
  exists counts,
    accumulate heat0 df_recent = Ok counts
    /\ Z.of_nat (heat_total counts)
       = sum_Z ((fun row => minutes_visited (Start_Time row) (End_Time row))
                <$> df_recent)
    /\ (Forall (fun row => aligned (Start_Time row) (End_Time row)) df_recent ->
        Z.of_nat (heat_total counts)
        = sum_Z ((fun row => inclusive_minutes (Start_Time row) (End_Time row))
                 <$> df_recent)).
Proof.
  intros _.
  destruct (accumulate_total heat0 df_recent heat0_shaped)
    as (counts & Hacc & _ & Ht).
  exists counts. split; [done|]. rewrite heat0_total in Ht. simpl in Ht.
  split; [done|]. intros Hal. by rewrite Ht, aligned_rows_minutes.
Qed.

Lemma total_minutes_of_filtered_sessions_witness :
  let df := [session (jan1 23 45 30) (jan2 0 15 0) 1770;
             session (jan2 10 0 0) (jan2 10 30 0) 1800] in
  recent feb_2024 df = Ok df
  /\ exists counts,
       accumulate heat0 df = Ok counts
       /\ Z.of_nat (heat_total counts) = 31 + 31.
Proof.
  intros df.
  assert (recent feb_2024 df = Ok df) as H by (vm_compute; reflexivity).
  split; [exact H|].
  destruct (total_minutes_of_filtered_sessions feb_2024 df df H)
    as (counts & Hacc & Ht & _).
  exists counts. split; [exact Hacc|]. rewrite Ht. vm_compute. reflexivity.
Defined.

(** C4 as stated fails: the session from 2024-01-01 23:45:30 to 2024-01-02
    00:15:00 lasts 29.5 minutes, inclusive count 30, but the walk visits the
    15 minutes 23:45:30 ... 23:59:30 and then, realigned at midnight, the 16
    minutes 00:00:00 ... 00:15:00. *)
Lemma total_minutes_counterexample :
  let df := [session (jan1 23 45 30) (jan2 0 15 0) 1770] in
  recent feb_2024 df = Ok df
  /\ ~ (exists counts,
          accumulate heat0 df = Ok counts
          /\ Z.of_nat (heat_total counts)
             = sum_Z ((fun row =>
                         inclusive_minutes (Start_Time row) (End_Time row))
                      <$> df)).
Proof.
  intros df. split; [by vm_compute|].
  intros (counts & Hacc & Ht).
  vm_compute in Hacc. injection Hacc as <-.
  vm_compute in Ht. discriminate Ht.
Qed.

(** ** C8: the duration parser *)

Lemma split_parts_within sep c s part :
  part ∈ split sep s -> contains c part = true -> contains c s = true.
Proof.
  revert part. induction s as [|a s IH]; intros part; simpl.
  - intros ->%list_elem_of_singleton. done.
  - destruct (Ascii.eqb a sep).
    + intros [->|Hin]%elem_of_cons; [done|].
      intros Hc. rewrite (IH _ Hin Hc). by rewrite orb_true_r.
    + destruct (split sep s) as [|p ps] eqn:Hsplit.
      * intros ->%list_elem_of_singleton. simpl.
        intros [Ha|?]%orb_true_iff; [by rewrite Ha | done].
      * intros [->|Hin]%elem_of_cons; simpl.
        -- intros [Ha|Hc]%orb_true_iff; [by rewrite Ha|].
           rewrite (IH p); [by rewrite orb_true_r| |done]. apply list_elem_of_here.
        -- intros Hc. rewrite (IH part); [by rewrite orb_true_r| |done].
           by apply list_elem_of_further.
Qed.

Lemma item_within parts i part : item parts i = Ok part -> part ∈ parts.
Proof.
  unfold item. destruct (parts !! i) eqn:Hl; [|done].
  intros [= <-]. by eapply list_elem_of_lookup_2.
Qed.

Lemma take_unit_absent marker duration_str value rest :
  take_unit marker duration_str = Ok (value, rest) ->
  (contains marker duration_str = false -> value = 0)
  /\ (forall c, contains c duration_str = false -> contains c rest = false).
Proof.
  unfold take_unit. destruct (contains marker duration_str) eqn:Hm.
  - destruct (item (split marker duration_str) 0) as [head|]; [|done]. simpl.
    destruct (int head) as [v|]; [|done]. simpl.
    destruct (item (split marker duration_str) 1) as [r|] eqn:Hr; [|done].
    simpl. intros [= <- <-]. split; [done|].
    intros c Hc. destruct (contains c r) eqn:Hcr; [|done].
    rewrite <- Hc. symmetry.
    by eapply split_parts_within; [eapply item_within|].
  - intros [= <- <-]. done.
Qed.

(** C8: the three tokens of the specification parse to 5020, 2700 and 30
    seconds, and on every token that parses, a unit whose marker does not
    occur in the token has value zero; a token with none of the markers parses
    to the empty span. *)
Theorem parse_duration_units :
  parse_duration "1h 23m 40s" = Ok 5020
  /\ parse_duration "45m" = Ok 2700
  /\ parse_duration "30s" = Ok 30
  /\ (forall token hours minutes seconds,
        parse_units token = Ok (hours, minutes, seconds) ->
        parse_duration token = timedelta_of hours minutes seconds
        /\ (contains "h" token = false -> hours = 0)
        /\ (contains "m" token = false -> minutes = 0)
        /\ (contains "s" token = false -> seconds = 0))
  /\ (forall token,
        contains "h" token = false -> contains "m" token = false ->
        contains "s" token = false -> parse_duration token = Ok 0).
Proof.
  split; [by vm_compute|]. split; [by vm_compute|]. split; [by vm_compute|].
  split.
  - intros token hours minutes seconds Hu.
    split; [unfold parse_duration; by rewrite Hu|].
    revert Hu. unfold parse_units.
    destruct (take_unit "h" token) as [[h rest1]|] eqn:Hh; [|done]. simpl.
    destruct (take_unit "m" rest1) as [[m rest2]|] eqn:Hm; [|done]. simpl.
    destruct (take_unit_absent _ _ _ _ Hh) as [Hh0 Hh1].
    destruct (take_unit_absent _ _ _ _ Hm) as [Hm0 Hm1].
    destruct (contains "s" rest2) eqn:Hs.
    + destruct (item (split "s" rest2) 0) as [head|]; [|done]. simpl.
      destruct (int head) as [v|]; [|done]. simpl. intros [= <- <- <-].
      split; [done|]. split; [by intros ?; apply Hm0, Hh1|].
      intros Hs0. apply Hh1, Hm1 in Hs0. congruence.
    + simpl. intros [= <- <- <-].
      split; [done|]. split; [by intros ?; apply Hm0, Hh1|]. done.
  - intros token Hh Hm Hs. unfold parse_duration, parse_units, take_unit.
    rewrite Hh. simpl. rewrite Hm. simpl. rewrite Hs. simpl. by vm_compute.
Qed.

Lemma parse_duration_units_witness :
  parse_units "45m" = Ok (0, 45, 0)
  /\ parse_duration "45m" = timedelta_of 0 45 0.
Proof.
  split; [reflexivity|].
  apply (proj1 (proj2 (proj2 (proj2 parse_duration_units))) "45m" 0 45 0).
  reflexivity.
Defined.

(** ** C7: the loader *)

Lemma accepted_iff parts :
  accepted parts = true
  <-> exists id start_field end_field duration_field,
        parts = [id; start_field; end_field; duration_field]
        /\ start_field <> EmptyString /\ end_field <> EmptyString.
Proof.
  unfold accepted, truthy. split.
  - intros [[Hlen H1]%andb_true_iff H2]%andb_true_iff.
    apply bool_decide_eq_true in Hlen.
    destruct parts as [|a [|b [|c [|d [|]]]]]; try done.
    exists a, b, c, d. split; [done|].
    apply negb_true_iff in H1, H2. simpl in H1, H2.
    split; intros ->; done.
  - intros (a & b & c & d & -> & Hb & Hc). simpl.
    destruct b; [done|]. destruct c; [done|]. done.
Qed.

Lemma load_traverse data records :
  load data records
  = (rows ← traverse record_of (filter (fun parts => accepted parts = true)
                                       (fields <$> data));
     Ok (records ++ rows)).
Proof.
  revert records. induction data as [|line data IH]; intros records.
  - simpl. by rewrite app_nil_r.
  - cbn [load]. fold (fields line). rewrite fmap_cons, filter_cons.
    destruct (accepted (fields line)) eqn:Hacc.
    + rewrite decide_True by done. simpl.
      destruct (record_of (fields line)) as [row|e]; simpl; [|done].
      rewrite IH.
      destruct (traverse record_of _) as [rows|e]; simpl; [|done].
      by rewrite <- app_assoc.
    + rewrite decide_False by (by intros ?). apply IH.
Qed.

Lemma traverse_raises {A B} (f : A -> result B) l a :
  a ∈ l -> raises (f a) -> raises (traverse f l).
Proof.
  intros Hin [e He]. induction Hin as [a l|a b l Hin IH]; simpl.
  - rewrite He. by exists e.
  - destruct (f b) as [y|e1]; simpl; [|by exists e1].
    destruct (IH He) as [e2 ->]. by exists e2.
Qed.

Lemma record_of_bad_timestamp parts :
  accepted parts = true ->
  raises (strptime (parts !!! 1%nat)) \/ raises (strptime (parts !!! 2%nat)) ->
  raises (record_of parts).
Proof.
  intros (a & b & c & d & -> & _)%accepted_iff. unfold record_of. simpl.
  intros [[e He]|[e He]].
  - rewrite He. by exists e.
  - destruct (strptime b) as [t|e']; simpl; [|by exists e'].
    rewrite He. by exists e.
Qed.

(** C7: a line is accepted exactly when its stripped text splits on commas
    into four fields of which the second and third are not empty; the loader
    returns the records of the accepted lines in order and the other lines
    leave no trace, neither a record nor an error; and an accepted line whose
    start or end field [strptime] rejects makes the load raise. *)
Theorem loader_accepts_and_surfaces (data : list string) :
  (forall line,
     accepted (fields line) = true
     <-> exists id start_field end_field duration_field,
           fields line = [id; start_field; end_field; duration_field]
           /\ start_field <> EmptyString /\ end_field <> EmptyString)
  /\ load data []
     = traverse record_of
         (filter (fun parts => accepted parts = true) (fields <$> data))
  /\ (forall line,
        line ∈ data -> accepted (fields line) = true ->
        raises (strptime (fields line !!! 1%nat))
        \/ raises (strptime (fields line !!! 2%nat)) ->
        raises (load data [])).
Proof.
  split; [intros line; apply accepted_iff|].
  assert (load data []
          = traverse record_of
              (filter (fun parts => accepted parts = true) (fields <$> data)))
    as Hload.
  { rewrite load_traverse. by destruct (traverse record_of _). }
  split; [done|].
  intros line Hin Hacc Hbad. rewrite Hload.
  apply (traverse_raises _ _ (fields line)).
  - apply list_elem_of_filter. split; [done|]. by apply list_elem_of_fmap_2.
  - by apply record_of_bad_timestamp.
Qed.

Lemma loader_accepts_and_surfaces_witness :
  let data := ["# log"; "1,24-01-01 10:00:00,24-01-01 10:30:00,30m";
               "2,,24-01-01 11:00:00,5m"; "3,24-01-01 12:00:00,noon,5m"]%string in
  let line := "3,24-01-01 12:00:00,noon,5m"%string in
  line ∈ data /\ accepted (fields line) = true
  /\ raises (strptime (fields line !!! 2%nat))
  /\ raises (load data []).
Proof.
  intros data line.
  assert (line ∈ data) as Hin
    by (do 3 apply list_elem_of_further; apply list_elem_of_here).
  assert (accepted (fields line) = true) as Hacc by reflexivity.
  assert (raises (strptime (fields line !!! 2%nat))) as Hbad
    by (exists ValueError; reflexivity).
  split; [exact Hin|]. split; [exact Hacc|]. split; [exact Hbad|].
  apply (proj2 (proj2 (loader_accepts_and_surfaces data)) line Hin Hacc).
  right. exact Hbad.
Defined.

(** ** C5: the daily series *)

Lemma traverse_Forall {A B} (f : A -> result B) l rows :
  traverse f l = Ok rows -> Forall (fun row => exists a, f a = Ok row) rows.
Proof.
  revert rows. induction l as [|a l IH]; intros rows; simpl.
  - intros [= <-]. constructor.
  - destruct (f a) as [b|] eqn:Hb; simpl; [|done].
    destruct (traverse f l) as [bs|]; simpl; [|done].
    intros [= <-]. constructor; [by exists a | by apply IH].
Qed.

Lemma record_of_Date parts row :
  record_of parts = Ok row -> Date row = toordinal (Start_Time row).
Proof.
  unfold record_of.
  destruct (item parts 1) as [f1|]; simpl; [|done].
  destruct (strptime f1) as [t1|]; simpl; [|done].
  destruct (item parts 2) as [f2|]; simpl; [|done].
  destruct (strptime f2) as [t2|]; simpl; [|done].
  destruct (item parts 3) as [f3|]; simpl; [|done].
  destruct (parse_duration f3) as [dur|]; simpl; [|done].
  by intros [= <-].
Qed.

Lemma load_Date data df :
  load data [] = Ok df ->
  Forall (fun row => Date row = toordinal (Start_Time row)) df.
Proof.
  rewrite load_traverse.
  destruct (traverse record_of _) as [rows|] eqn:Hrows; simpl; [|done].
  intros [= <-]. eapply Forall_impl; [by eapply traverse_Forall|].
  intros row [parts Hrow]. by eapply record_of_Date.
Qed.

Lemma groupby_sum_lookup df d :
  default 0 (groupby_sum df !! d)
  = sum_Z (Duration <$> filter (fun row => Date row = d) df).
Proof.
  induction df as [|row df IH]; [done|].
  cbn [groupby_sum foldr]. fold (groupby_sum df).
  rewrite lookup_insert, filter_cons.
  destruct (decide (Date row = d)) as [->|Hne].
  - rewrite fmap_cons. cbn [default sum_Z foldr]. rewrite IH.
    unfold sum_Z, id. lia.
  - apply IH.
Qed.

Lemma foldr_min_spec d ds :
  foldr Z.min d ds ∈ d :: ds /\ (forall x, x ∈ d :: ds -> foldr Z.min d ds <= x).
Proof.
  induction ds as [|y ds [Hin Hle]]; cbn [foldr].
  - split; [apply list_elem_of_here|]. intros x ->%list_elem_of_singleton. lia.
  - split.
    + destruct (Z.min_spec y (foldr Z.min d ds)) as [[_ ->]|[_ ->]].
      * apply list_elem_of_further, list_elem_of_here.
      * apply elem_of_cons in Hin as [->|Hin];
          [apply list_elem_of_here | by do 2 apply list_elem_of_further].
    + intros x [->|[->|Hx]%elem_of_cons]%elem_of_cons.
      * specialize (Hle d (list_elem_of_here _ _)). lia.
      * lia.
      * specialize (Hle x (list_elem_of_further _ _ _ Hx)). lia.
Qed.

Lemma foldr_max_spec d ds :
  foldr Z.max d ds ∈ d :: ds /\ (forall x, x ∈ d :: ds -> x <= foldr Z.max d ds).
Proof.
  induction ds as [|y ds [Hin Hle]]; cbn [foldr].
  - split; [apply list_elem_of_here|]. intros x ->%list_elem_of_singleton. lia.
  - split.
    + destruct (Z.max_spec y (foldr Z.max d ds)) as [[_ ->]|[_ ->]].
      * apply elem_of_cons in Hin as [->|Hin];
          [apply list_elem_of_here | by do 2 apply list_elem_of_further].
      * apply list_elem_of_further, list_elem_of_here.
    + intros x [->|[->|Hx]%elem_of_cons]%elem_of_cons.
      * specialize (Hle d (list_elem_of_here _ _)). lia.
      * lia.
      * specialize (Hle x (list_elem_of_further _ _ _ Hx)). lia.
Qed.

Lemma filter_Date_start df d :
  Forall (fun row => Date row = toordinal (Start_Time row)) df ->
  filter (fun row => Date row = d) df
  = filter (fun row => toordinal (Start_Time row) = d) df.
Proof.
  induction 1 as [|row df Hrow _ IH]; [done|].
  rewrite !filter_cons, IH, Hrow. done.
Qed.

(** C5: for the records of a load that accepted at least one line, the daily
    series is indexed by every calendar day from the earliest to the latest
    start date, in order and without a gap, and the value of each day is the
    sum of the durations of the sessions that start on it (zero when there is
    none), in hours: the seconds as a float, divided once by 3600. *)
Theorem daily_series_is_contiguous (data : list string) (df : list Session) :
  load data [] = Ok df -> df <> [] ->
  exists lo hi,
    lo ∈ (toordinal ∘ Start_Time) <$> df
    /\ hi ∈ (toordinal ∘ Start_Time) <$> df
    /\ (forall row, row ∈ df -> lo <= toordinal (Start_Time row) <= hi)
    /\ study_per_day_hours df
       = Ok ((fun d =>
                (d, fdiv (float_of_Z (duration_on df d)) (float_of_Z 3600)))
             <$> seqZ lo (hi - lo + 1)).
Proof.
  intros Hload Hne. pose proof (load_Date _ _ Hload) as HDate.
  assert (Date <$> df = (toordinal ∘ Start_Time) <$> df) as Hdates.
  { clear Hload Hne. induction HDate as [|row df Hrow _ IH]; [done|].
    rewrite !fmap_cons, IH. simpl. by rewrite Hrow. }
  unfold study_per_day_hours, study_per_day.
  destruct (Date <$> df) as [|d ds] eqn:Hds; [by destruct df|].
  destruct (foldr_min_spec d ds) as [Hmin_in Hmin].
  destruct (foldr_max_spec d ds) as [Hmax_in Hmax].
  exists (foldr Z.min d ds), (foldr Z.max d ds).
  rewrite <- Hdates. split; [done|]. split; [done|]. split.
  - intros row Hrow.
    assert (toordinal (Start_Time row) ∈ d :: ds) as Hin.
    { rewrite Hdates. by apply (list_elem_of_fmap_2 (toordinal ∘ Start_Time)). }
    split; [by apply Hmin | by apply Hmax].
  - simpl. f_equal. unfold reindex, date_range.
    rewrite <- list_fmap_compose. apply list_fmap_ext. intros _ x _. simpl.
    unfold to_hours, duration_on.
    by rewrite groupby_sum_lookup, (filter_Date_start _ _ HDate).
Qed.

Lemma daily_series_is_contiguous_witness :
  let data := ["1,24-01-01 10:00:00,24-01-01 10:30:00,30m";
               "2,24-01-03 09:00:00,24-01-03 10:00:00,1h"]%string in
  let df := [session (jan1 10 0 0) (jan1 10 30 0) 1800;
             session (datetime_of 2024 1 3 9 0 0) (datetime_of 2024 1 3 10 0 0)
               3600] in
  load data [] = Ok df /\ df <> []
  /\ exists lo hi,
       lo ∈ (toordinal ∘ Start_Time) <$> df
       /\ hi ∈ (toordinal ∘ Start_Time) <$> df
       /\ (forall row, row ∈ df -> lo <= toordinal (Start_Time row) <= hi)
       /\ study_per_day_hours df
          = Ok ((fun d =>
                   (d, fdiv (float_of_Z (duration_on df d)) (float_of_Z 3600)))
                <$> seqZ lo (hi - lo + 1)).
Proof.
  intros data df.
  assert (load data [] = Ok df) as Hload by (vm_compute; reflexivity).
  assert (df <> []) as Hne by discriminate.
  split; [exact Hload|]. split; [exact Hne|].
  exact (daily_series_is_contiguous data df Hload Hne).
Defined.

(** ** C6: rolling means *)



Lemma roll_mean_length window values i st entering :
  length (roll_mean window values i st entering) = length entering.
Proof.
  revert i st. induction entering as [|x entering IH]; intros i st; [done|].
  cbn [roll_mean length]. by rewrite IH.
Qed.

Lemma rolling_mean_length window values :
  length (rolling_mean window values) = length values.
Proof.
  unfold rolling_mean, prep_values. by rewrite roll_mean_length, length_fmap.
Qed.








(** The hours of the program are finite: rounding a number below
    [2 ^ size] in magnitude gives a number below [2 ^ (size + 1)], and so does
    dividing it by a number that is at least one. *)

Lemma digits2_pos_upper p : Z.pos p < 2 ^ Z.pos (digits2_pos p).
Proof.
  induction p as [p IH|p IH|]; cbn [digits2_pos]; [| |done];
    rewrite Pos2Z.inj_succ, Z.pow_succ_r by lia; lia.
Qed.

Lemma digits2_pos_le p n : Z.pos p < 2 ^ n -> 0 <= n -> Z.pos (digits2_pos p) <= n.
Proof.
  revert n. induction p as [p IH|p IH|]; intros n Hlt Hn; cbn [digits2_pos].
  - assert (n <> 0) by (intros ->; simpl in Hlt; lia).
    replace n with (Z.succ (n - 1)) in Hlt by lia.
    rewrite Z.pow_succ_r in Hlt by lia.
    specialize (IH (n - 1) ltac:(lia) ltac:(lia)). lia.
  - assert (n <> 0) by (intros ->; simpl in Hlt; lia).
    replace n with (Z.succ (n - 1)) in Hlt by lia.
    rewrite Z.pow_succ_r in Hlt by lia.
    specialize (IH (n - 1) ltac:(lia) ltac:(lia)). lia.
  - assert (n <> 0) by (intros ->; simpl in Hlt; lia). lia.
Qed.

Lemma Zdigits2_nonneg m : 0 <= Zdigits2 m.
Proof. destruct m; simpl; lia. Qed.

Lemma Zdigits2_upper m : 0 <= m -> m < 2 ^ Zdigits2 m.
Proof.
  destruct m as [|p|p]; [done| |lia]. intros _. apply digits2_pos_upper.
Qed.

Lemma Zdigits2_le m n : 0 <= m < 2 ^ n -> 0 <= n -> Zdigits2 m <= n.
Proof.
  destruct m as [|p|p]; simpl; [lia| |lia]. intros [_ Hlt] Hn.
  by apply digits2_pos_le.
Qed.

Lemma Zdigits2_succ m : 0 <= m -> Zdigits2 (m + 1) <= Zdigits2 m + 1.
Proof.
  intros Hm. apply Zdigits2_le; [|pose proof (Zdigits2_nonneg m); lia].
  pose proof (Zdigits2_upper m Hm) as Hup.
  rewrite Z.pow_add_r by (pose proof (Zdigits2_nonneg m); lia). lia.
Qed.

Lemma shr_1_digits mrs :
  0 <= shr_m mrs ->
  0 <= shr_m (shr_1 mrs)
  /\ Zdigits2 (shr_m (shr_1 mrs)) = Z.max (Zdigits2 (shr_m mrs) - 1) 0.
Proof.
  destruct mrs as [m r s]. cbn [shr_m].
  destruct m as [|[p|p|]|p]; cbn [shr_1 shr_m Zdigits2 digits2_pos]; lia.
Qed.

Lemma iter_shr_1_digits (n : positive) mrs :
  0 <= shr_m mrs ->
  0 <= shr_m (SpecFloat.iter_pos shr_1 n mrs)
  /\ Zdigits2 (shr_m (SpecFloat.iter_pos shr_1 n mrs))
     = Z.max (Zdigits2 (shr_m mrs) - Z.pos n) 0.
Proof.
  revert mrs. induction n as [n IH|n IH|]; intros mrs Hm; cbn [SpecFloat.iter_pos].
  - destruct (shr_1_digits mrs Hm) as [H1 E1].
    destruct (IH _ H1) as [H2 E2]. destruct (IH _ H2) as [H3 E3].
    split; [done|]. rewrite E3, E2, E1. lia.
  - destruct (IH _ Hm) as [H2 E2]. destruct (IH _ H2) as [H3 E3].
    split; [done|]. rewrite E3, E2. lia.
  - apply shr_1_digits, Hm.
Qed.

Lemma fexp_le t : fexp 53 1024 t = Z.max (t - 53) (-1074).
Proof. reflexivity. Qed.

Lemma shr_fexp_size m e l :
  0 <= m ->
  let r := shr_fexp 53 1024 m e l in
  0 <= shr_m r.1
  /\ r.2 <= Z.max e (fexp 53 1024 (Zdigits2 m + e))
  /\ Zdigits2 (shr_m r.1) + r.2
     <= Z.max (Zdigits2 m + e) (fexp 53 1024 (Zdigits2 m + e)).
Proof.
  intros Hm. unfold shr_fexp, shr.
  assert (shr_m (shr_record_of_loc m l) = m) as Hrec
    by (by destruct l as [|[]]).
  destruct (fexp 53 1024 (Zdigits2 m + e) - e) as [|p|p] eqn:Hn;
    cbn [fst snd]; rewrite ?Hrec; try lia.
  destruct (iter_shr_1_digits p (shr_record_of_loc m l)) as [H1 E1];
    [by rewrite Hrec|].
  rewrite Hrec in E1. split; [done|]. rewrite E1. lia.
Qed.

Lemma binary_round_aux_below size sx mx ex lx :
  0 <= mx -> Zdigits2 mx + ex <= size -> ex <= 971 -> 0 <= size <= 1022 ->
  below (size + 1) (binary_round_aux 53 1024 sx mx ex lx).
Proof.
  intros Hmx Hsize Hex Hmax. unfold binary_round_aux.
  pose proof (shr_fexp_size mx ex lx Hmx) as H1. cbv zeta in H1.
  destruct (shr_fexp 53 1024 mx ex lx) as [mrs' e'].
  cbn [fst snd] in H1. destruct H1 as (Hm' & He' & Hd').
  set (m1 := round_nearest_even (shr_m mrs') (loc_of_shr_record mrs')).
  assert (0 <= m1 /\ Zdigits2 m1 <= Zdigits2 (shr_m mrs') + 1) as [Hm1 Hd1].
  { subst m1. unfold round_nearest_even.
    pose proof (Zdigits2_succ _ Hm').
    destruct (loc_of_shr_record mrs') as [|[]]; try destruct (Z.even _);
      split; lia. }
  pose proof (shr_fexp_size m1 e' loc_Exact Hm1) as H2. cbv zeta in H2.
  destruct (shr_fexp 53 1024 m1 e' loc_Exact) as [mrs'' e''].
  cbn [fst snd] in H2. destruct H2 as (Hm'' & He'' & Hd'').
  rewrite !fexp_le in *.
  destruct (shr_m mrs'') as [|m|m] eqn:Hm; [done| |lia].
  assert (e'' <= 971) as Hfin by lia.
  change (1024 - 53) with 971. rewrite (Zle_imp_le_bool _ _ Hfin).
  cbn [below Zdigits2] in *. lia.
Qed.

Lemma digits2_pos_shift m (d : positive) :
  Z.pos (digits2_pos (Pos.iter xO m d)) = Z.pos (digits2_pos m) + Z.pos d.
Proof.
  induction d as [|d IH] using Pos.peano_ind.
  - cbn [Pos.iter digits2_pos]. lia.
  - rewrite Pos.iter_succ. cbn [digits2_pos]. lia.
Qed.

Lemma float_of_Z_below size z :
  Z.abs z < 2 ^ size -> 0 <= size <= 1022 -> below (size + 1) (float_of_Z z).
Proof.
  intros Hz Hsize. unfold float_of_Z, binary_normalize.
  assert (forall s m, Z.pos m < 2 ^ size ->
            below (size + 1) (binary_round 53 1024 s m 0)) as Hround.
  { intros s m Hm. unfold binary_round, shl_align.
    pose proof (digits2_pos_le m size Hm ltac:(lia)) as Hd.
    rewrite fexp_le.
    destruct (Z.max (Z.pos (digits2_pos m) + 0 - 53) (-1074) - 0)
      as [|d|d] eqn:Hshift.
    - apply binary_round_aux_below; cbn [Zdigits2]; lia.
    - apply binary_round_aux_below; cbn [Zdigits2]; lia.
    - apply binary_round_aux_below; cbn [Zdigits2];
        rewrite ?digits2_pos_shift; lia. }
  destruct z as [|m|m]; [done|apply Hround|apply Hround]; lia.
Qed.

Lemma fdiv_below size x sy my ey :
  below size x -> 0 <= size - ey <= 1022 ->
  below (size - ey + 1) (fdiv x (S754_finite sy my ey)).
Proof.
  intros Hx Hsize. unfold fdiv, SFdiv.
  destruct x as [s|s| |s m e]; try done.
  destruct Hx as [Hd He]. unfold SFdiv_core_binary.
  set (d1 := Zdigits2 (Z.pos m)) in *. set (d2 := Zdigits2 (Z.pos my)).
  assert (1 <= d2) as Hd2 by (subst d2; simpl; lia).
  rewrite fexp_le.
  set (e' := Z.min (Z.max (d1 + e - (d2 + ey) - 53) (-1074)) (e - ey)).
  set (shifted := match e - ey - e' with
                  | 0 => Z.pos m | Z.pos _ => Z.shiftl (Z.pos m) (e - ey - e')
                  | Z.neg _ => 0 end).
  assert (0 <= shifted < 2 ^ (d1 + (e - ey - e'))) as Hshifted.
  { pose proof (digits2_pos_upper m) as Hup. fold (Zdigits2 (Z.pos m)) in Hup.
    fold d1 in Hup. subst shifted.
    assert (0 <= e - ey - e') as Hs by lia.
    destruct (e - ey - e') as [|p|p] eqn:Hshift; [rewrite Z.add_0_r; lia| |lia].
    rewrite Z.shiftl_mul_pow2, Z.pow_add_r by (subst d1; simpl; lia).
    pose proof (Z.pow_pos_nonneg 2 (Z.pos p) ltac:(lia) ltac:(lia)). nia. }
  pose proof (Z.div_pos shifted (Z.pos my) ltac:(lia) ltac:(lia)) as Hq.
  pose proof (Z.div_le_upper_bound shifted (Z.pos my) shifted ltac:(lia)
                ltac:(nia)) as Hq'.
  unfold Z.div in Hq, Hq'. destruct (Z.div_eucl shifted (Z.pos my)) as [q r].
  assert (Zdigits2 q <= d1 + (e - ey - e')) as Hdq.
  { apply Zdigits2_le; [lia|]. subst d1. simpl. lia. }
  apply binary_round_aux_below; lia.
Qed.

Lemma to_hours_finite x : Z.abs x < 2 ^ 63 -> isfinite (to_hours x) = true.
Proof.
  intros Hx. unfold to_hours.
  assert (float_of_Z 3600 = S754_finite false 7916483719987200 (-41)) as ->
    by (vm_compute; reflexivity).
  pose proof (float_of_Z_below 63 x Hx ltac:(lia)) as Hbelow.
  pose proof (fdiv_below _ _ false 7916483719987200 (-41) Hbelow ltac:(lia))
    as Hdiv.
  by destruct (fdiv _ _).
Qed.

Lemma daily_hours_are_finite df per_day :
  study_per_day df = Some per_day ->
  Forall (fun day => Z.abs day.2 < 2 ^ 63) per_day ->
  exists hours,
    study_per_day_hours df = Ok hours
    /\ Forall (fun x => isfinite x = true) (snd <$> hours).
Proof.
  intros Hper_day Hsmall. unfold study_per_day_hours. rewrite Hper_day.
  cbn [local]. rewrite bind_Ok. eexists. split; [done|].
  rewrite <- list_fmap_compose. apply Forall_fmap.
  eapply Forall_impl; [exact Hsmall|].
  intros [d x] Hx. by apply to_hours_finite.
Qed.

(** The two smoothed series of the program are the rolling means, over 7
    and over 30 days, of the hours of its daily series (lines 54-55). *)
Lemma analysis_smoothed data today result :
  analyze_study_data data today = Ok result ->
  smoothed_7d result = rolling_mean 7 (snd <$> daily_series result)
  /\ smoothed_30d result = rolling_mean 30 (snd <$> daily_series result).
Proof.
  unfold analyze_study_data.
  destruct (load data []) as [df|]; [|done]. rewrite bind_Ok.
  destruct (study_per_day_hours df) as [hours|]; [|done]. rewrite bind_Ok.
  destruct (build_density today df) as [heat|]; [|done]. rewrite bind_Ok.
  by intros [= <-].
Qed.





(** ** C2: no accepted line *)

Lemma load_nothing_accepted data :
  Forall (fun line => accepted (fields line) = false) data ->
  load data [] = Ok [].
Proof.
  intros Hno. rewrite load_traverse.
  replace (filter (fun parts => accepted parts = true) (fields <$> data))
    with (@nil (list string)); [done|].
  induction Hno as [|line data Hline _ IH]; [done|].
  rewrite fmap_cons, filter_cons, decide_False by (by rewrite Hline). apply IH.
Qed.

(** C2 fails on the code: when no line is accepted, [df] is empty, the block
    under [if not df.empty:] (line 45) does not run, [study_per_day] is never
    bound, and line 51, which reads it, raises; no series and no matrix is
    produced. *)
Theorem no_accepted_line_raises (data : list string) (today : clock) :
  Forall (fun line => accepted (fields line) = false) data ->
  load data [] = Ok []
  /\ study_per_day [] = None
  /\ analyze_study_data data today = Raise UnboundLocalError.
Proof.
  intros Hno. pose proof (load_nothing_accepted data Hno) as Hload.
  split; [done|]. split; [done|].
  unfold analyze_study_data. by rewrite Hload.
Qed.

Lemma no_accepted_line_raises_witness :
  let data := ["# sessions"; "1,,24-01-01 10:00:00,5m"; ""]%string in
  Forall (fun line => accepted (fields line) = false) data
  /\ analyze_study_data data feb_2024 = Raise UnboundLocalError.
Proof.
  intros data.
  assert (Forall (fun line => accepted (fields line) = false) data) as Hno
    by (repeat constructor).
  split; [exact Hno|].
  apply (no_accepted_line_raises data feb_2024 Hno).
Defined.

(** ** C9: nothing recent *)

Lemma zero_cell :
  fmul (fdiv (float_of_Z (Z.of_nat 0)) (float_of_Z 60)) (float_of_Z 60)
  = float_of_Z 0.
Proof. reflexivity. Qed.

Lemma normalise_zero : normalise heat0 (weeks []) = zero_density.
Proof.
  unfold normalise. change (weeks_positive (weeks [])) with false. cbv iota.
  unfold cells, heat0, zero_density.
  rewrite !fmap_replicate. by rewrite zero_cell.
Qed.

(** C9, as amended: when at least one session was accepted and the recency
    filter keeps none of them, the quotient by seven of the span in days is
    NaN, the test [weeks > 0] is false, so the matrix is not divided by it,
    and the binner returns the all-zero matrix without raising; so does the
    whole analysis of the lines the frame was loaded from. *)
Theorem nothing_recent_gives_zero_matrix (today : clock) (df : list Session) :
  recent today df = Ok [] ->
  df <> []
  /\ weeks [] = nan
  /\ weeks_positive (weeks []) = false
  /\ (forall counts,
        normalise counts (weeks [])
        = cells (fun x => fmul x (float_of_Z 60))
            (cells (fun c => fdiv (float_of_Z (Z.of_nat c)) (float_of_Z 60))
               counts))
  /\ build_density today df = Ok zero_density
  /\ (forall data,
        load data [] = Ok df ->
        exists result,
          analyze_study_data data today = Ok result
          /\ density_matrix result = zero_density).
Proof.
  intros Hrecent. split; [by destruct df|].
  split; [done|]. split; [done|]. split; [done|].
  assert (build_density today df = Ok zero_density) as Hbuild.
  { unfold build_density. rewrite Hrecent. simpl. by rewrite normalise_zero. }
  split; [done|].
  intros data Hload. unfold analyze_study_data. rewrite Hload. simpl.
  destruct df as [|row df]; [done|].
  unfold study_per_day_hours, study_per_day. rewrite fmap_cons. simpl.
  rewrite Hbuild. simpl. by eexists.
Qed.

Lemma nothing_recent_gives_zero_matrix_witness :
  let df := [session (datetime_of 2023 1 1 10 0 0) (datetime_of 2023 1 1 11 0 0)
               3600] in
  recent feb_2024 df = Ok []
  /\ build_density feb_2024 df = Ok zero_density.
Proof.
  intros df.
  assert (recent feb_2024 df = Ok []) as H by (vm_compute; reflexivity).
  split; [exact H|].
  apply (nothing_recent_gives_zero_matrix feb_2024 df H).
Defined.

(** C9 as stated fails on the empty set of sessions, of which the filter
    would keep none: the frame built from no record has no column to filter
    on, so the binner raises instead of returning a zero matrix; and the run
    does not get that far, since line 51 has raised before (see C2). *)
Lemma nothing_recent_counterexample :
  let df : list Session := [] in
  filter (fun row => at_or_after (Start_Time row) (x_months_ago feb_2024)) df
  = []
  /\ build_density feb_2024 df = Raise KeyError
  /\ build_density feb_2024 df <> Ok zero_density
  /\ load [] [] = Ok df
  /\ analyze_study_data [] feb_2024 = Raise UnboundLocalError.
Proof. by vm_compute. Qed.

(** ** C10: durations do not reach the matrix *)

Lemma recent_intervals today df1 df2 rows1 :
  interval <$> df1 = interval <$> df2 ->
  recent today df1 = Ok rows1 ->
  exists rows2,
    recent today df2 = Ok rows2 /\ interval <$> rows1 = interval <$> rows2.
Proof.
  unfold recent. intros Hint.
  destruct df1 as [|r1 df1]; [done|].
  destruct df2 as [|r2 df2]; [done|].
  intros [= <-]. eexists. split; [done|].
  revert Hint. generalize (r1 :: df1) (r2 :: df2). clear.
  intros l1. induction l1 as [|a l1 IH]; intros [|b l2]; try done.
  rewrite !fmap_cons. intros [= Hs He Hrest].
  rewrite !filter_cons, Hs.
  destruct (decide _); [|by apply IH].
  rewrite !fmap_cons. unfold interval at 1 3. rewrite Hs, He. f_equal.
  by apply IH.
Qed.

Lemma recent_raises_intervals today df1 df2 e :
  interval <$> df1 = interval <$> df2 ->
  recent today df1 = Raise e -> recent today df2 = Raise e.
Proof. destruct df1, df2; done. Qed.

Lemma accumulate_intervals heat rows1 rows2 :
  interval <$> rows1 = interval <$> rows2 ->
  accumulate heat rows1 = accumulate heat rows2.
Proof.
  intros Hint. rewrite !accumulate_visited. f_equal. f_equal.
  change (fun row => visited (Start_Time row) (End_Time row))
    with ((fun p : datetime * datetime => visited p.1 p.2) ∘ interval).
  by rewrite !list_fmap_compose, Hint.
Qed.

Lemma weeks_intervals rows1 rows2 :
  interval <$> rows1 = interval <$> rows2 -> weeks rows1 = weeks rows2.
Proof.
  intros Hint. unfold weeks.
  change Start_Time with (fst ∘ interval).
  by rewrite !list_fmap_compose, Hint.
Qed.

(** C10: two frames of sessions with the same start and end timestamps, row
    for row, give the same result of the binner at the same clock reading,
    whatever their durations are (and whatever their [Date] columns are): the
    same matrix, or the same exception. *)
Theorem density_ignores_durations (today : clock) (df1 df2 : list Session) :
  interval <$> df1 = interval <$> df2 ->
  build_density today df1 = build_density today df2.
Proof.
  intros Hint. unfold build_density.
  destruct (recent today df1) as [rows1|e] eqn:H1.
  - destruct (recent_intervals _ _ _ _ Hint H1) as (rows2 & -> & Hrows).
    simpl. by rewrite (accumulate_intervals _ _ _ Hrows),
             (weeks_intervals _ _ Hrows).
  - by rewrite (recent_raises_intervals _ _ _ _ Hint H1).
Qed.

Lemma density_ignores_durations_witness :
  let df1 := [session (jan1 23 45 0) (jan2 0 15 0) 1800;
              session (jan2 10 0 0) (jan2 10 30 0) 1800] in
  let df2 := [session (jan1 23 45 0) (jan2 0 15 0) 7;
              session (jan2 10 0 0) (jan2 10 30 0) (-86400)] in
  interval <$> df1 = interval <$> df2
  /\ Duration <$> df1 <> Duration <$> df2
  /\ build_density feb_2024 df1 = build_density feb_2024 df2.
Proof.
  intros df1 df2.
  assert (interval <$> df1 = interval <$> df2) as H by reflexivity.
  split; [exact H|]. split; [discriminate|].
  apply (density_ignores_durations feb_2024 df1 df2 H).
Defined.

(** ** The model on some inputs *)

Example strip_line :
  strip ("  7,a,b,1h " +:+ String (ascii_of_nat 10) "") = "7,a,b,1h"%string.
Proof. reflexivity. Qed.

Example split_commas : split "," "a,,b," = ["a"; ""; "b"; ""]%string.
Proof. reflexivity. Qed.

Example int_spaces_sign_underscore :
  int " -1_000 " = Ok (-1000) /\ int "" = Raise ValueError
  /\ int "1__0" = Raise ValueError /\ int "+ 5" = Raise ValueError.
Proof. by vm_compute. Qed.

Example parse_duration_second_h : parse_duration "1h 2h 3m" = Ok 3600.
Proof. by vm_compute. Qed.

Example parse_duration_no_number : parse_duration "h" = Raise ValueError.
Proof. by vm_compute. Qed.

Example strptime_plain :
  strptime "24-01-01 23:45:00" = Ok (jan1 23 45 0).
Proof. by vm_compute. Qed.

Example strptime_short_fields :
  strptime "24-1- 1  3:5:0" = Ok (jan1 3 5 0).
Proof. by vm_compute. Qed.

Example strptime_rejects :
  strptime "24-02-30 23:45:00" = Raise ValueError
  /\ strptime "24-02-29 23:45:60" = Raise ValueError
  /\ strptime "24-02-29 23:45:07x" = Raise ValueError
  /\ strptime "2024-02-29 23:45:07" = Raise ValueError.
Proof. by vm_compute. Qed.

Example strptime_century :
  strptime "69-12-31 23:45:07" = Ok (combine (ymd2ord 1969 12 31) 23 45 7)
  /\ strptime "68-12-31 23:45:07" = Ok (combine (ymd2ord 2068 12 31) 23 45 7).
Proof. by vm_compute. Qed.

Example monday : weekday (jan1 0 0 0) = 0 /\ ymd2ord 2024 1 1 = 738886.
Proof. by vm_compute. Qed.

Example cutoff_clips_the_day :
  x_months_ago (Clock 2024 6 30 8 0 0 0) = Clock 2024 2 29 8 0 0 0
  /\ x_months_ago (Clock 2024 3 31 8 0 0 0) = Clock 2023 11 30 8 0 0 0.
Proof. by vm_compute. Qed.

Example analysis_of_three_lines :
  let data := ["study log";
               "1,24-01-01 23:45:00,24-01-02 00:15:00,30m";
               "2,24-01-03 09:00:00,24-01-03 10:00:00,1h"]%string in
  exists result,
    analyze_study_data data feb_2024 = Ok result
    /\ fst <$> daily_series result
       = [ymd2ord 2024 1 1; ymd2ord 2024 1 2; ymd2ord 2024 1 3]
    /\ smoothed_7d result = [None; None; None]
    /\ fst <$> map_to_list (weekday_month_table result)
       = [(0, (2024, 1)); (1, (2024, 1)); (2, (2024, 1))].
Proof.
  intros data. unfold analyze_study_data.
  assert (load data []
          = Ok [session (jan1 23 45 0) (jan2 0 15 0) 1800;
                session (datetime_of 2024 1 3 9 0 0)
                  (datetime_of 2024 1 3 10 0 0) 3600]) as ->
    by (vm_compute; reflexivity).
  cbn [mbind result_bind].
  destruct (study_per_day_hours _) as [hours|] eqn:Hhours; [|by vm_compute in Hhours].
  destruct (build_density _ _) as [heat|] eqn:Hheat; [|by vm_compute in Hheat].
  eexists. split; [reflexivity|].
  cbn [daily_series smoothed_7d weekday_month_table].
  vm_compute in Hhours. injection Hhours as <-.
  split; [by vm_compute|]. split; [by vm_compute|].
  vm_compute. reflexivity.
Qed.

(** The separators 28-31 are white space to [str.strip] and not to [int]. *)
Example int_rejects_separators :
  strip (String (ascii_of_nat 28) "5") = "5"%string
  /\ int (String (ascii_of_nat 28) "5") = Raise ValueError
  /\ int (String (ascii_of_nat 160) "5" +:+ String (ascii_of_nat 9) "") = Ok 5.
Proof. by vm_compute. Qed.

(** Roundings.  Six days of ten minutes add up to 0.9999999999999999 hours,
    not to 1; a cell of 3 minutes over a span of one day comes out as
    21.000000000000004, and a cell of 31 minutes that is not divided by the
    weeks as 31.000000000000004. *)
Example six_sixths :
  foldl fadd (float_of_Z 0) (replicate 6 (to_hours 600))
  = S754_finite false 9007199254740991 (-53)
  /\ float_of_Z 1 = S754_finite false 4503599627370496 (-52).
Proof. by vm_compute. Qed.

Example cell_roundings :
  normalise [[3%nat]] (fdiv (float_of_Z 1) (float_of_Z 7))
  = [[S754_finite false 5910974510923777 (-48)]]
  /\ float_of_Z 21 = S754_finite false 5910974510923776 (-48)
  /\ normalise [[31%nat]] nan = [[S754_finite false 8725724278030337 (-48)]]
  /\ float_of_Z 31 = S754_finite false 8725724278030336 (-48).
Proof. by vm_compute. Qed.

(** * Further properties *)

(** ** Text *)








Lemma length_split sep s : length (split sep s) = S (count sep s).
Proof.
  induction s as [|c s IH]; [done|]. cbn [split count].
  destruct (Ascii.eqb c sep); cbn [length]; [by rewrite IH|].
  destruct (split sep s); cbn [length] in *; lia.
Qed.










Lemma count_rev_app sep s a :
  count sep (String.rev_app s a) = (count sep s + count sep a)%nat.
Proof.
  revert a. induction s as [|c s IH]; intros a; [done|].
  cbn [String.rev_app count]. rewrite IH. cbn [count]. lia.
Qed.

Lemma count_lstrip sep s :
  isspace sep = false -> count sep (lstrip s) = count sep s.
Proof.
  intros Hsep. induction s as [|c s IH]; [done|]. cbn [lstrip].
  destruct (isspace c) eqn:Hc; [|done]. cbn [count]. rewrite IH.
  destruct (Ascii.eqb_spec c sep) as [->|]; [congruence|done].
Qed.

Lemma count_strip sep s :
  isspace sep = false -> count sep (strip s) = count sep s.
Proof.
  intros Hsep. unfold strip, rstrip, String.rev.
  rewrite count_rev_app, count_lstrip, count_rev_app, count_lstrip by done.
  cbn [count]. lia.
Qed.

(** ** The duration parser on well-written durations *)





(** ** What [strptime] returns *)

Lemma between_digit (lo hi c : ascii) :
  between (String lo EmptyString) (String hi EmptyString) c = true ->
  digit_value lo <= digit_value c <= digit_value hi.
Proof.
  unfold between, digit_value.
  intros [?%Nat.leb_le ?%Nat.leb_le]%andb_true_iff. lia.
Qed.

Lemma isdigit_digit (c : ascii) :
  isdigit c = true -> 0 <= digit_value c <= 9.
Proof.
  unfold isdigit, digit_value.
  intros [?%Nat.leb_le ?%Nat.leb_le]%andb_true_iff. lia.
Qed.

Lemma two_Some first second s v rest :
  two first second s = Some (v, rest) ->
  exists a b, first a = true /\ second b = true
              /\ v = 10 * digit_value a + digit_value b.
Proof.
  destruct s as [|a [|b s]]; try done. cbn [two].
  destruct (first a) eqn:Ha, (second b) eqn:Hb; try done.
  intros [= <- _]. by exists a, b.
Qed.

Lemma one_Some only s v rest :
  one only s = Some (v, rest) ->
  exists a, only a = true /\ v = digit_value a.
Proof.
  destruct s as [|a s]; [done|]. cbn [one].
  destruct (only a) eqn:Ha; [|done]. intros [= <- _]. by exists a.
Qed.

Lemma blank_then_Some only s v rest :
  blank_then only s = Some (v, rest) ->
  exists a, only a = true /\ v = digit_value a.
Proof.
  destruct s as [|c s]; [done|]. unfold blank_then.
  destruct (Ascii.eqb c " ") eqn:Hc.
  - apply Ascii.eqb_eq in Hc as ->. apply one_Some.
  - destruct c as [[] [] [] [] [] [] [] []]; try done.
Qed.

Lemma group_Some {A} alts s (k : Z -> string -> option A) r :
  group alts s k = Some r ->
  exists alt v rest,
    alt ∈ alts /\ alt s = Some (v, rest) /\ k v rest = Some r.
Proof.
  unfold group. induction alts as [|alt alts IH]; [done|]. cbn [foldr].
  destruct (alt s) as [[v rest]|] eqn:Halt; cbn [mbind option_bind].
  - destruct (k v rest) as [r'|] eqn:Hk.
    + intros [= <-]. exists alt, v, rest. split; [apply list_elem_of_here|done].
    + intros (alt' & v' & rest' & Hin & H)%IH.
      exists alt', v', rest'. split; [by apply list_elem_of_further|done].
  - intros (alt' & v' & rest' & Hin & H)%IH.
    exists alt', v', rest'. split; [by apply list_elem_of_further|done].
Qed.

Ltac digit_ranges :=
  repeat match goal with
    | H : _ ∈ _ :: _ |- _ => apply elem_of_cons in H as [->|H]
    | H : _ ∈ [] |- _ => by apply elem_of_nil in H
    | H : two _ _ _ = Some _ |- _ =>
        apply two_Some in H as (? & ? & ? & ? & ->)
    | H : one _ _ = Some _ |- _ => apply one_Some in H as (? & ? & ->)
    | H : blank_then _ _ = Some _ |- _ =>
        apply blank_then_Some in H as (? & ? & ->)
    | H : between (String ?lo _) (String ?hi _) _ = true |- _ =>
        apply between_digit in H;
        let l := eval vm_compute in (digit_value lo) in
        let h := eval vm_compute in (digit_value hi) in
        change (digit_value lo) with l in H;
        change (digit_value hi) with h in H
    | H : isdigit _ = true |- _ => apply isdigit_digit in H
    end.

Lemma re_m_range alt s v rest :
  alt ∈ re_m -> alt s = Some (v, rest) -> 1 <= v <= 12.
Proof.
  unfold re_m. intros Hin Halt. digit_ranges; lia.
Qed.

Lemma re_d_range alt s v rest :
  alt ∈ re_d -> alt s = Some (v, rest) -> 1 <= v <= 31.
Proof.
  unfold re_d. intros Hin Halt. digit_ranges; lia.
Qed.

Lemma re_H_range alt s v rest :
  alt ∈ re_H -> alt s = Some (v, rest) -> 0 <= v <= 23.
Proof.
  unfold re_H. intros Hin Halt. digit_ranges; lia.
Qed.

Lemma re_M_range alt s v rest :
  alt ∈ re_M -> alt s = Some (v, rest) -> 0 <= v <= 59.
Proof.
  unfold re_M. intros Hin Halt. digit_ranges; lia.
Qed.

Lemma re_S_range alt s v rest :
  alt ∈ re_S -> alt s = Some (v, rest) -> 0 <= v <= 61.
Proof.
  unfold re_S. intros Hin Halt. digit_ranges; lia.
Qed.

Lemma strptime_match_ranges s yy mo dd hh mi ss rest :
  strptime_match s = Some (yy, mo, dd, hh, mi, ss, rest) ->
  0 <= yy <= 99 /\ 1 <= mo <= 12 /\ 1 <= dd <= 31
  /\ 0 <= hh <= 23 /\ 0 <= mi <= 59 /\ 0 <= ss <= 61.
Proof.
  unfold strptime_match.
  destruct (two isdigit isdigit s) as [[yy' s1]|] eqn:Hyy; [|done].
  cbn [mbind option_bind].
  destruct (lit "-" s1) as [s2|]; [|done]. cbn [mbind option_bind].
  intros (am & vm & s3 & Hm & Ham & Hk)%group_Some.
  destruct (lit "-" s3) as [s4|]; [|done]. cbn [mbind option_bind] in Hk.
  apply group_Some in Hk as (ad & vd & s5 & Hd & Had & Hk).
  destruct (spaces s5) as [s6|]; [|done]. cbn [mbind option_bind] in Hk.
  apply group_Some in Hk as (aH & vH & s7 & HH & HaH & Hk).
  destruct (lit ":" s7) as [s8|]; [|done]. cbn [mbind option_bind] in Hk.
  apply group_Some in Hk as (aM & vM & s9 & HM & HaM & Hk).
  destruct (lit ":" s9) as [s10|]; [|done]. cbn [mbind option_bind] in Hk.
  apply group_Some in Hk as (aS & vS & s11 & HS & HaS & Hk).
  injection Hk as <- <- <- <- <- <- <-.
  pose proof (re_m_range _ _ _ _ Hm Ham).
  pose proof (re_d_range _ _ _ _ Hd Had).
  pose proof (re_H_range _ _ _ _ HH HaH).
  pose proof (re_M_range _ _ _ _ HM HaM).
  pose proof (re_S_range _ _ _ _ HS HaS).
  apply two_Some in Hyy as (a & b & Ha%isdigit_digit & Hb%isdigit_digit & ->).
  lia.
Qed.

(** X2: what [strptime] returns is a timestamp of the calendar: a year from
    1969 to 2068 (two digits up to 68 are read as 20yy, the others as 19yy),
    a month from 1 to 12, a day that month has, and a time of day from
    00:00:00 to 23:59:59. *)
Theorem strptime_returns_a_valid_timestamp (data_string : string)
    (t : datetime) :
  strptime data_string = Ok t ->
  exists year month day hour minute second,
    t = datetime_of year month day hour minute second
    /\ 1969 <= year <= 2068
    /\ 1 <= month <= 12
    /\ 1 <= day <= days_in_month year month
    /\ 0 <= hour <= 23 /\ 0 <= minute <= 59 /\ 0 <= second <= 59.
Proof.
  unfold strptime.
  destruct (strptime_match data_string)
    as [[[[[[[yy mo] dd] hh] mi] ss] [|]]|] eqn:Hmatch; try done.
  apply strptime_match_ranges in Hmatch.
  case_decide as Hvalid; [|done]. intros [= <-].
  exists (if decide (yy <= 68) then 2000 + yy else 1900 + yy), mo, dd, hh, mi, ss.
  split; [done|]. case_decide; lia.
Qed.

Lemma strptime_returns_a_valid_timestamp_witness :
  strptime "24-01-01 10:00:00" = Ok (jan1 10 0 0)
  /\ exists year month day hour minute second,
       jan1 10 0 0 = datetime_of year month day hour minute second
       /\ 1969 <= year <= 2068
       /\ 1 <= month <= 12
       /\ 1 <= day <= days_in_month year month
       /\ 0 <= hour <= 23 /\ 0 <= minute <= 59 /\ 0 <= second <= 59.
Proof.
  assert (strptime "24-01-01 10:00:00" = Ok (jan1 10 0 0)) as H
    by (vm_compute; reflexivity).
  split; [exact H|].
  exact (strptime_returns_a_valid_timestamp _ _ H).
Defined.

(** ** The calendar, there and back *)

Lemma days_before_year_succ y :
  days_before_year y
  = days_before_year (y - 1) + 365 + (if is_leap (y - 1) then 1 else 0).
Proof.
  unfold days_before_year, is_leap.
  repeat case_bool_decide; cbn [andb orb negb]; div_mod_lia.
Qed.

Lemma year_length y :
  days_before_year (y + 1)
  = days_before_year y + 365 + (if is_leap y then 1 else 0).
Proof.
  rewrite (days_before_year_succ (y + 1)). by replace (y + 1 - 1) with y by lia.
Qed.

Lemma days_before_year_mono y y' :
  y <= y' -> days_before_year y <= days_before_year y'.
Proof.
  intros Hle. replace y' with (y + Z.of_nat (Z.to_nat (y' - y))) by lia.
  induction (Z.to_nat (y' - y)) as [|k IH]; [by rewrite Z.add_0_r|].
  replace (y + Z.of_nat (S k)) with (y + Z.of_nat k + 1) by lia.
  rewrite year_length. destruct (is_leap _); lia.
Qed.

Ltac month_cases m :=
  let Hcases := fresh "Hcases" in
  assert (m = 1 \/ m = 2 \/ m = 3 \/ m = 4 \/ m = 5 \/ m = 6 \/ m = 7
          \/ m = 8 \/ m = 9 \/ m = 10 \/ m = 11 \/ m = 12) as Hcases by lia;
  repeat (destruct Hcases as [->|Hcases]); try subst m.

Lemma day_of_year_range y m d :
  1 <= m <= 12 -> 1 <= d <= days_in_month y m ->
  1 <= days_before_month y m + d <= 365 + (if is_leap y then 1 else 0).
Proof.
  intros Hm. unfold days_in_month, days_before_month.
  destruct (is_leap y); month_cases m; eval_tables; lia.
Qed.

Lemma month_order y m m' d d' :
  1 <= m -> m < m' -> m' <= 12 -> d <= days_in_month y m -> 1 <= d' ->
  days_before_month y m + d < days_before_month y m' + d'.
Proof.
  intros Hm Hlt Hm'. unfold days_in_month, days_before_month.
  destruct (is_leap y); month_cases m; month_cases m'; try lia;
    eval_tables; lia.
Qed.

Lemma ymd2ord_inj y m d y' m' d' :
  1 <= m <= 12 -> 1 <= d <= days_in_month y m ->
  1 <= m' <= 12 -> 1 <= d' <= days_in_month y' m' ->
  ymd2ord y m d = ymd2ord y' m' d' ->
  y = y' /\ m = m' /\ d = d'.
Proof.
  intros Hm Hd Hm' Hd'. unfold ymd2ord. intros Heq.
  pose proof (day_of_year_range y m d Hm Hd) as Hr.
  pose proof (day_of_year_range y' m' d' Hm' Hd') as Hr'.
  pose proof (year_length y) as Hy. pose proof (year_length y') as Hy'.
  assert (y = y') as <-.
  { destruct (Z.lt_trichotomy y y') as [Hlt|[?|Hgt]]; [|done|].
    - pose proof (days_before_year_mono (y + 1) y' ltac:(lia)). lia.
    - pose proof (days_before_year_mono (y' + 1) y ltac:(lia)). lia. }
  split; [done|].
  destruct (Z.lt_trichotomy m m') as [Hlt|[<-|Hgt]].
  - pose proof (month_order y m m' d d'). lia.
  - lia.
  - pose proof (month_order y m' m d' d). lia.
Qed.

Lemma month_of_day_of_year y m r :
  1 <= m <= 12 -> 0 <= r <= 364 -> 32 * m <= r + 50 < 32 * m + 32 ->
  let preceding :=
    DAYS_BEFORE_MONTH !!! Z.to_nat m
    + (if bool_decide (2 < m) && is_leap y then 1 else 0) in
  if decide (r < preceding)
  then 1 <= m - 1
       /\ 1 <= r - (preceding
                    - (DAYS_IN_MONTH !!! Z.to_nat (m - 1)
                       + (if bool_decide (m - 1 = 2) && is_leap y
                          then 1 else 0))) + 1
          <= days_in_month y (m - 1)
  else 1 <= r - preceding + 1 <= days_in_month y m.
Proof.
  intros Hm Hr Hest. unfold days_in_month.
  destruct (is_leap y); month_cases m; case_decide; eval_tables; lia.
Qed.

Lemma ord2ymd_valid n :
  1 <= (ord2ymd n).1.2 <= 12
  /\ 1 <= (ord2ymd n).2 <= days_in_month (ord2ymd n).1.1 (ord2ymd n).1.2.
Proof.
  unfold ord2ymd.
  set (n0 := n - 1).
  set (a := n0 `div` 146097). set (r1 := n0 `mod` 146097).
  set (b := r1 `div` 36524). set (r2 := r1 `mod` 36524).
  set (c := r2 `div` 1461). set (r3 := r2 `mod` 1461).
  set (d := r3 `div` 365). set (r := r3 `mod` 365).
  assert (n0 = 146097 * a + r1 /\ 0 <= r1 < 146097) as [Hn0 Hr1]
    by (subst a r1; div_mod_lia).
  assert (r1 = 36524 * b + r2 /\ 0 <= r2 < 36524) as [Hb Hr2]
    by (subst b r2; div_mod_lia).
  assert (r2 = 1461 * c + r3 /\ 0 <= r3 < 1461) as [Hc Hr3]
    by (subst c r3; div_mod_lia).
  assert (r3 = 365 * d + r /\ 0 <= r < 365) as [Hd Hr]
    by (subst d r; div_mod_lia).
  clearbody a r1 b r2 c r3 d r.
  case_bool_decide as Hlast; cbn [fst snd].
  - unfold days_in_month. eval_tables. lia.
  - rewrite <- (is_leap_cycles a b c d) by lia.
    set (y := a * 400 + 1 + b * 100 + c * 4 + d).
    pose proof (month_estimate r ltac:(lia)) as Hm.
    assert (32 * Z.shiftr (r + 50) 5 <= r + 50 < 32 * Z.shiftr (r + 50) 5 + 32)
      as Hest.
    { rewrite Z.shiftr_div_pow2 by lia. change (2 ^ 5) with 32. div_mod_lia. }
    pose proof (month_of_day_of_year y (Z.shiftr (r + 50) 5) r Hm ltac:(lia)
                  Hest) as Hstep.
    cbv zeta in Hstep.
    case_decide; cbn [fst snd]; lia.
Qed.

Lemma ord2ymd_ymd2ord y m d :
  1 <= m <= 12 -> 1 <= d <= days_in_month y m ->
  ord2ymd (ymd2ord y m d) = (y, m, d).
Proof.
  intros Hm Hd.
  destruct (ord2ymd_valid (ymd2ord y m d)) as [Hm' Hd'].
  pose proof (ymd2ord_ord2ymd (ymd2ord y m d)) as Heq.
  destruct (ord2ymd (ymd2ord y m d)) as [[y' m'] d']. cbn [fst snd] in *.
  by destruct (ymd2ord_inj _ _ _ _ _ _ Hm' Hd' Hm Hd Heq) as (-> & -> & ->).
Qed.

(** X3: the calendar, there and back.  A timestamp built from a year, a month,
    a day of that month and a time of day has that year, month and day, and
    that hour and minute; and the table files its day under that year and
    month.  With it the fields of what [strptime] read are the fields the
    later steps see. *)
Theorem datetime_fields_round_trip (y mo d hh mi ss : Z) :
  1 <= mo <= 12 -> 1 <= d <= days_in_month y mo ->
  0 <= hh <= 23 -> 0 <= mi <= 59 -> 0 <= ss <= 59 ->
  let t := datetime_of y mo d hh mi ss in
  year t = y /\ month t = mo /\ day t = d /\ hour t = hh /\ minute t = mi
  /\ weekday_month_key (toordinal t) = (weekday t, (y, mo)).
Proof.
  intros Hmo Hd Hhh Hmi Hss t.
  assert (toordinal t = ymd2ord y mo d) as Hord.
  { subst t. unfold datetime_of, combine, toordinal. div_mod_lia. }
  assert (toordinal (combine (toordinal t) 0 0 0) = toordinal t) as Hmid
    by (unfold combine, toordinal; div_mod_lia).
  pose proof (ord2ymd_ymd2ord _ _ _ Hmo Hd) as Hymd.
  split_and!.
  - unfold year. by rewrite Hord, Hymd.
  - unfold month. by rewrite Hord, Hymd.
  - unfold day. by rewrite Hord, Hymd.
  - subst t. unfold hour, datetime_of, combine. div_mod_lia.
  - subst t. unfold minute, datetime_of, combine. div_mod_lia.
  - unfold weekday_month_key, weekday, year, month.
    by rewrite Hmid, Hord, Hymd.
Qed.

Lemma datetime_fields_round_trip_witness :
  1 <= 2 <= 12 /\ 1 <= 29 <= days_in_month 2024 2
  /\ 0 <= 23 <= 23 /\ 0 <= 59 <= 59 /\ 0 <= 58 <= 59
  /\ let t := datetime_of 2024 2 29 23 59 58 in
     year t = 2024 /\ month t = 2 /\ day t = 29 /\ hour t = 23
     /\ minute t = 59
     /\ weekday_month_key (toordinal t) = (weekday t, (2024, 2)).
Proof.
  assert (1 <= 2 <= 12) as Hmo by lia.
  assert (1 <= 29 <= days_in_month 2024 2) as Hd
    by (vm_compute; split; discriminate).
  assert (0 <= 23 <= 23) as Hhh by lia.
  assert (0 <= 59 <= 59) as Hmi by lia.
  assert (0 <= 58 <= 59) as Hss by lia.
  split; [exact Hmo|]. split; [exact Hd|]. split; [exact Hhh|].
  split; [exact Hmi|]. split; [exact Hss|].
  exact (datetime_fields_round_trip 2024 2 29 23 59 58 Hmo Hd Hhh Hmi Hss).
Defined.

(** ** The loader *)

(** X4: a line that does not hold exactly three commas is skipped by the
    loader, whatever else it holds: it is neither parsed nor recorded. *)
Theorem line_needs_three_commas (line : string) (data : list string)
    (records : list Session) :
  count "," line <> 3%nat ->
  load (line :: data) records = load data records.
Proof.
  intros Hcount. cbn [load].
  replace (accepted (split "," (strip line))) with false; [done|].
  symmetry. unfold accepted. rewrite length_split, count_strip by done.
  rewrite bool_decide_eq_false_2; [done|]. lia.
Qed.

Lemma line_needs_three_commas_witness :
  count "," "a,b" <> 3%nat
  /\ load ["a,b"%string; "1,24-01-01 10:00:00,24-01-01 10:30:00,30m"%string] []
     = load ["1,24-01-01 10:00:00,24-01-01 10:30:00,30m"%string] [].
Proof.
  assert (count "," "a,b" <> 3%nat) as H by (vm_compute; discriminate).
  split; [exact H|].
  exact (line_needs_three_commas "a,b" _ [] H).
Defined.

(** X5: loading two runs of lines one after the other is loading the first
    and going on with the second from the records read so far; an error in
    the first run is the error of the whole, and the second run is not
    looked at. *)
Theorem load_app data1 data2 records :
  load (data1 ++ data2) records
  = load data1 records ≫= load data2.
Proof.
  revert records. induction data1 as [|line data1 IH]; intros records; [done|].
  cbn [app load]. destruct (accepted _); [|apply IH].
  destruct (record_of _) as [row|e]; [|done].
  rewrite !bind_Ok. apply IH.
Qed.

Lemma traverse_Permutation {A B} (f : A -> result B) (l l' : list A)
    (rows : list B) :
  l ≡ₚ l' -> traverse f l = Ok rows ->
  exists rows', traverse f l' = Ok rows' /\ rows ≡ₚ rows'.
Proof.
  intros Hp. revert rows.
  induction Hp as [|a l l' Hp IH|a b l|l1 l2 l3 Hp1 IH1 Hp2 IH2]; intros rows.
  - intros [= <-]. by exists [].
  - cbn [traverse]. destruct (f a) as [x|]; [|done]. rewrite bind_Ok.
    destruct (traverse f l) as [xs|] eqn:Hl; [|done]. rewrite bind_Ok.
    intros [= <-]. destruct (IH xs eq_refl) as (xs' & -> & Hxs).
    exists (x :: xs'). split; [done|]. by constructor.
  - cbn [traverse]. destruct (f a) as [x|], (f b) as [y|]; try done.
    rewrite !bind_Ok. destruct (traverse f l) as [xs|]; [|done].
    rewrite !bind_Ok. intros [= <-]. exists (x :: y :: xs).
    split; [done|]. apply perm_swap.
  - intros H1. destruct (IH1 _ H1) as (rows2 & H2 & Hp12).
    destruct (IH2 _ H2) as (rows3 & H3 & Hp23).
    exists rows3. split; [done|]. by etrans.
Qed.

Lemma load_Permutation data data' df :
  data ≡ₚ data' -> load data [] = Ok df ->
  exists df', load data' [] = Ok df' /\ df ≡ₚ df'.
Proof.
  intros Hp. rewrite !load_traverse.
  destruct (traverse record_of (filter _ (fields <$> data))) as [rows|] eqn:Hrows;
    [|done].
  rewrite bind_Ok. intros [= <-].
  assert (filter (fun parts => accepted parts = true) (fields <$> data)
          ≡ₚ filter (fun parts => accepted parts = true) (fields <$> data'))
    as Hparts by (by rewrite Hp).
  destruct (traverse_Permutation record_of _ _ _ Hparts Hrows)
    as (rows' & -> & Hperm).
  exists rows'. by rewrite bind_Ok.
Qed.

(** ** The daily series *)

Lemma foldr_min_Permutation d ds d' ds' :
  d :: ds ≡ₚ d' :: ds' -> foldr Z.min d ds = foldr Z.min d' ds'.
Proof.
  intros Hp.
  destruct (foldr_min_spec d ds) as [Hin Hle].
  destruct (foldr_min_spec d' ds') as [Hin' Hle'].
  rewrite Hp in Hin. rewrite <- Hp in Hin'.
  specialize (Hle _ Hin'). specialize (Hle' _ Hin). lia.
Qed.

Lemma foldr_max_Permutation d ds d' ds' :
  d :: ds ≡ₚ d' :: ds' -> foldr Z.max d ds = foldr Z.max d' ds'.
Proof.
  intros Hp.
  destruct (foldr_max_spec d ds) as [Hin Hle].
  destruct (foldr_max_spec d' ds') as [Hin' Hle'].
  rewrite Hp in Hin. rewrite <- Hp in Hin'.
  specialize (Hle _ Hin'). specialize (Hle' _ Hin). lia.
Qed.

Lemma sum_Z_Permutation l1 l2 : l1 ≡ₚ l2 -> sum_Z l1 = sum_Z l2.
Proof.
  unfold sum_Z.
  induction 1 as [|x l1 l2 _ IH|x y l|l1 l2 l3 _ IH1 _ IH2]; simpl; lia.
Qed.

Lemma study_per_day_Permutation df1 df2 :
  df1 ≡ₚ df2 -> study_per_day df1 = study_per_day df2.
Proof.
  intros Hp. unfold study_per_day.
  assert (Date <$> df1 ≡ₚ Date <$> df2) as Hd by (by rewrite Hp).
  destruct (Date <$> df1) as [|d ds], (Date <$> df2) as [|d' ds'].
  - done.
  - by apply Permutation_nil_l in Hd.
  - by apply Permutation_nil_r in Hd.
  - rewrite (foldr_min_Permutation _ _ _ _ Hd),
      (foldr_max_Permutation _ _ _ _ Hd).
    f_equal. unfold reindex. apply list_fmap_ext. intros _ x _. f_equal.
    rewrite !groupby_sum_lookup. apply sum_Z_Permutation. by rewrite Hp.
Qed.

Lemma study_per_day_hours_Permutation df1 df2 :
  df1 ≡ₚ df2 -> study_per_day_hours df1 = study_per_day_hours df2.
Proof.
  intros Hp. unfold study_per_day_hours.
  by rewrite (study_per_day_Permutation _ _ Hp).
Qed.

Lemma sum_Z_fmap_add {A} (f g : A -> Z) l :
  sum_Z ((fun x => f x + g x) <$> l) = sum_Z (f <$> l) + sum_Z (g <$> l).
Proof.
  unfold sum_Z. induction l as [|x l IH]; [done|].
  rewrite !fmap_cons. cbn [foldr]. lia.
Qed.

Lemma sum_Z_indicator (x v : Z) l :
  NoDup l -> x ∈ l ->
  sum_Z ((fun d => if decide (x = d) then v else 0) <$> l) = v.
Proof.
  unfold sum_Z. induction 1 as [|d l Hd _ IH]; [by intros ?%elem_of_nil|].
  rewrite fmap_cons. cbn [foldr].
  intros [<-|Hin]%elem_of_cons.
  - rewrite decide_True by done.
    replace (foldr Z.add 0 ((fun d => if decide (x = d) then v else 0) <$> l))
      with 0; [lia|].
    clear IH. induction l as [|y l IH]; [done|].
    rewrite fmap_cons. cbn [foldr]. rewrite decide_False.
    + rewrite <- IH; [done|]. intros ?. apply Hd. by apply list_elem_of_further.
    + intros ->. apply Hd, list_elem_of_here.
  - rewrite decide_False by (intros ->; done). rewrite IH by done. lia.
Qed.

Lemma sum_over_days (df : list Session) lo n :
  (forall row, row ∈ df -> lo <= Date row < lo + n) ->
  sum_Z ((fun d => sum_Z (Duration <$> filter (fun row => Date row = d) df))
         <$> seqZ lo n)
  = sum_Z (Duration <$> df).
Proof.
  induction df as [|row df IH]; intros Hin.
  - cbn [filter list_filter fmap list_fmap]. clear.
    unfold sum_Z at 2 3. cbn [foldr fmap list_fmap].
    generalize (seqZ lo n). intros l. unfold sum_Z.
    induction l as [|x l IH]; [done|]. rewrite fmap_cons. cbn [foldr]. lia.
  - rewrite fmap_cons. unfold sum_Z at 3. cbn [foldr]. fold (sum_Z (Duration <$> df)).
    rewrite <- IH by (intros r Hr; apply Hin; by apply list_elem_of_further).
    rewrite <- (sum_Z_indicator (Date row) (Duration row) (seqZ lo n)).
    + rewrite <- sum_Z_fmap_add. f_equal. apply list_fmap_ext. intros _ d _.
      rewrite filter_cons. case_decide as Hd.
      * rewrite fmap_cons. unfold sum_Z. cbn [foldr]. done.
      * lia.
    + apply NoDup_seqZ.
    + apply elem_of_seqZ. apply Hin, list_elem_of_here.
Qed.

Lemma study_per_day_dates df per_day :
  study_per_day df = Some per_day ->
  exists lo hi,
    (forall row, row ∈ df -> lo <= Date row <= hi)
    /\ per_day
       = (fun d => (d, sum_Z (Duration <$> filter (fun row => Date row = d) df)))
         <$> seqZ lo (hi - lo + 1).
Proof.
  unfold study_per_day.
  destruct (Date <$> df) as [|d ds] eqn:Hds; [done|].
  intros [= <-].
  destruct (foldr_min_spec d ds) as [_ Hmin].
  destruct (foldr_max_spec d ds) as [_ Hmax].
  exists (foldr Z.min d ds), (foldr Z.max d ds). split.
  - intros row Hrow.
    assert (Date row ∈ d :: ds) as Hin
      by (rewrite <- Hds; by apply list_elem_of_fmap_2).
    split; [by apply Hmin | by apply Hmax].
  - unfold reindex, date_range. apply list_fmap_ext. intros _ x _.
    by rewrite groupby_sum_lookup.
Qed.

(** X6: the daily sums keep the total: the durations of the days of the daily
    series, before they are converted to hours, add up to the sum of the
    durations of all sessions; no session is lost or counted twice by the
    grouping and the filling of the gaps.  The hours of the series are these
    sums, each divided by 3600. *)
Theorem daily_series_conserves_total (df : list Session)
    (per_day : list (Z * timedelta)) :
  study_per_day df = Some per_day ->
  sum_Z (snd <$> per_day) = sum_Z (Duration <$> df)
  /\ study_per_day_hours df
     = Ok ((fun day => (day.1, to_hours day.2)) <$> per_day).
Proof.
  intros Hpd. split.
  - destruct (study_per_day_dates _ _ Hpd) as (lo & hi & Hin & ->).
    rewrite <- list_fmap_compose.
    by rewrite <- (sum_over_days df lo (hi - lo + 1))
      by (intros row Hrow; specialize (Hin row Hrow); lia).
  - unfold study_per_day_hours. by rewrite Hpd.
Qed.

Lemma daily_series_conserves_total_witness :
  let df := [session (jan1 10 0 0) (jan1 10 30 0) 1800;
             session (datetime_of 2024 1 3 9 0 0) (datetime_of 2024 1 3 10 0 0)
               3600] in
  exists per_day,
    study_per_day df = Some per_day
    /\ sum_Z (snd <$> per_day) = 5400
    /\ study_per_day_hours df
       = Ok ((fun day => (day.1, to_hours day.2)) <$> per_day).
Proof.
  intros df.
  destruct (study_per_day df) as [per_day|] eqn:H;
    [|vm_compute in H; discriminate H].
  exists per_day. split; [reflexivity|].
  exact (daily_series_conserves_total df per_day H).
Defined.

(** ** The recency window *)

Lemma x_months_ago_days today :
  well_formed today ->
  120 <= ymd2ord (now_year today) (now_month today) (now_day today)
         - ymd2ord (now_year (x_months_ago today))
             (now_month (x_months_ago today)) (now_day (x_months_ago today))
      <= 123.
Proof.
  destruct today as [y m d hh mi ss us]. unfold well_formed. cbn [now_year now_month now_day].
  intros (Hm & Hd).
  unfold x_months_ago, x_months. cbn [now_year now_month now_day].
  unfold ymd2ord. revert Hd. unfold days_in_month, days_before_month.
  assert (m = 1 \/ m = 2 \/ m = 3 \/ m = 4 \/ m = 5 \/ m = 6 \/ m = 7
          \/ m = 8 \/ m = 9 \/ m = 10 \/ m = 11 \/ m = 12) as Hcases by lia.
  repeat (destruct Hcases as [->|Hcases]); try subst m;
    repeat case_decide; try lia; eval_tables; cbn [andb];
    rewrite (days_before_year_succ y);
    destruct (is_leap y), (is_leap (y - 1)); cbn [andb];
    intros Hd; lia.
Qed.

Lemma x_months_ago_seconds today :
  well_formed today ->
  clock_seconds today - 123 * 86400 <= clock_seconds (x_months_ago today)
  <= clock_seconds today - 120 * 86400.
Proof.
  intros Hdays%x_months_ago_days. revert Hdays.
  unfold clock_seconds, combine.
  generalize (ymd2ord (now_year (x_months_ago today))
                (now_month (x_months_ago today)) (now_day (x_months_ago today))).
  unfold x_months_ago. cbn [now_hour now_minute now_second]. lia.
Qed.

(** X9: the recency window is 120 to 123 days long.  For a clock that reads a
    day of the calendar, a session that starts less than 120 days before now
    (or in the future) is kept by the filter, and one that starts more than
    123 days before now is dropped. *)
Theorem recency_window (today : clock) (df rows : list Session) (row : Session) :
  well_formed today ->
  recent today df = Ok rows ->
  row ∈ df ->
  (clock_seconds today - 120 * 86400 < Start_Time row -> row ∈ rows)
  /\ (Start_Time row < clock_seconds today - 123 * 86400 -> row ∉ rows).
Proof.
  intros Hwf%x_months_ago_seconds Hrecent Hrow.
  destruct df as [|r df]; [done|]. injection Hrecent as <-.
  split.
  - intros Hlate. apply list_elem_of_filter. split; [|done].
    unfold at_or_after. case_decide; apply Is_true_true, bool_decide_eq_true; lia.
  - intros Hearly [Hkept _]%list_elem_of_filter. revert Hkept.
    unfold at_or_after.
    case_decide; intros ?%Is_true_true%bool_decide_eq_true; lia.
Qed.

Lemma recency_window_witness :
  let row := session (jan1 10 0 0) (jan1 10 30 0) 1800 in
  well_formed feb_2024
  /\ recent feb_2024 [row] = Ok [row]
  /\ row ∈ [row]
  /\ (clock_seconds feb_2024 - 120 * 86400 < Start_Time row -> row ∈ [row])
  /\ (Start_Time row < clock_seconds feb_2024 - 123 * 86400 -> row ∉ [row]).
Proof.
  intros row.
  assert (well_formed feb_2024) as Hwf by (vm_compute; intuition discriminate).
  assert (recent feb_2024 [row] = Ok [row]) as Hrecent
    by (vm_compute; reflexivity).
  assert (row ∈ [row]) as Hrow by apply list_elem_of_here.
  split; [exact Hwf|]. split; [exact Hrecent|]. split; [exact Hrow|].
  exact (recency_window feb_2024 [row] [row] row Hwf Hrecent Hrow).
Defined.

(** ** The walk over the minutes of a session *)

(** X10: line 111 builds the end of the day from the year, month and day of
    [start_time]: that instant is not before [start_time], lies on the same
    day, and one second later is the midnight that opens the next day, which
    is where the outer loop resumes. *)
Theorem day_end_is_the_last_second (start_time : datetime) :
  let last :=
    datetime_of (year start_time) (month start_time) (day start_time)
      23 59 59 in
  start_time <= last
  /\ toordinal last = toordinal start_time
  /\ last + 1 = combine (toordinal start_time + 1) 0 0 0.
Proof.
  cbv zeta. rewrite day_end_civil.
  unfold day_end, combine, toordinal. split_and!; div_mod_lia.
Qed.

Lemma visited_minutes_bounds cursor seg_end c :
  c ∈ visited_minutes cursor seg_end -> cursor <= c <= seg_end.
Proof.
  funelim (visited_minutes cursor seg_end); clear Heq Heqcall.
  - intros [->|Hin]%elem_of_cons; [lia|]. specialize (H _ Hin). lia.
  - by intros ?%elem_of_nil.
Qed.

Lemma visited_bounds start_time end_time c :
  c ∈ visited start_time end_time -> start_time <= c <= end_time.
Proof.
  funelim (visited start_time end_time); clear Heq Heqcall.
  - intros [Hin|Hin]%elem_of_app.
    + apply visited_minutes_bounds in Hin. lia.
    + specialize (H _ Hin). pose proof (start_le_day_end start_time). lia.
  - by intros ?%elem_of_nil.
Qed.

Lemma cell_count_none cursors wd bin :
  (forall t, t ∈ cursors -> ~ (weekday t = wd /\ bin_idx t = bin)) ->
  cell_count cursors wd bin = 0%nat.
Proof.
  intros Hnone. unfold cell_count.
  destruct (filter _ cursors) as [|t ts] eqn:Hf; [done|].
  assert (t ∈ filter (fun t => weekday t = wd /\ bin_idx t = bin) cursors)
    as [Ht Hin]%list_elem_of_filter by (rewrite Hf; apply list_elem_of_here).
  by destruct (Hnone t Hin).
Qed.

(** X11: the walk of a session changes only cells of instants of the session:
    a cell whose weekday and half hour no instant between the start and the
    end has keeps its count. *)
Theorem walk_touches_only_the_session (heat heat' : Heat)
    (start_time end_time : datetime) (wd bin : Z) :
  walk_session heat start_time end_time = Ok heat' ->
  (forall t, start_time <= t <= end_time ->
             ~ (weekday t = wd /\ bin_idx t = bin)) ->
  heat_at heat' wd bin = heat_at heat wd bin.
Proof.
  intros Hwalk Hout. rewrite walk_session_visited in Hwalk.
  rewrite (visit_all_cells _ _ _ wd bin Hwalk), cell_count_none.
  - destruct (heat_at heat wd bin); simpl; [f_equal; lia | done].
  - intros t Hin. apply Hout. by apply visited_bounds.
Qed.

Lemma walk_touches_only_the_session_witness :
  exists heat',
    walk_session heat0 (jan1 10 0 0) (jan1 10 5 0) = Ok heat'
    /\ (forall t, jan1 10 0 0 <= t <= jan1 10 5 0 ->
                  ~ (weekday t = 1 /\ bin_idx t = 20))
    /\ heat_at heat' 1 20 = heat_at heat0 1 20.
Proof.
  assert (forall t, jan1 10 0 0 <= t <= jan1 10 5 0 ->
                    ~ (weekday t = 1 /\ bin_idx t = 20)) as Hout.
  { intros t Ht [Hwd _]. revert Ht Hwd.
    let v := eval vm_compute in (jan1 10 0 0) in change (jan1 10 0 0) with v.
    let v := eval vm_compute in (jan1 10 5 0) in change (jan1 10 5 0) with v.
    unfold weekday, toordinal. div_mod_lia. }
  destruct (walk_session heat0 (jan1 10 0 0) (jan1 10 5 0)) as [heat'|e] eqn:H;
    [|vm_compute in H; discriminate H].
  exists heat'. split; [reflexivity|]. split; [exact Hout|].
  exact (walk_touches_only_the_session heat0 heat' _ _ 1 20 H Hout).
Defined.

Lemma visited_minutes_step cursor seg_end c :
  c ∈ visited_minutes cursor seg_end -> (c - cursor) `mod` 60 = 0.
Proof.
  funelim (visited_minutes cursor seg_end); clear Heq Heqcall.
  - intros [->|Hin]%elem_of_cons.
    + by rewrite Z.sub_diag.
    + specialize (H _ Hin). revert H. div_mod_lia.
  - by intros ?%elem_of_nil.
Qed.

Lemma visited_steps start_time end_time c :
  c ∈ visited start_time end_time ->
  if decide (toordinal c = toordinal start_time)
  then (c - start_time) `mod` 60 = 0
  else toordinal start_time < toordinal c /\ c `mod` 60 = 0.
Proof.
  funelim (visited start_time end_time); clear Heq Heqcall.
  - intros [Hin|Hin]%elem_of_app.
    + pose proof (visited_minutes_bounds _ _ _ Hin) as Hb.
      apply visited_minutes_step in Hin.
      rewrite decide_True; [done|].
      revert Hb. unfold day_end, combine, toordinal. div_mod_lia.
    + pose proof (visited_bounds _ _ _ Hin) as Hb.
      specialize (H _ Hin). revert H Hb.
      unfold day_end, combine, toordinal.
      destruct (Z.min_spec end_time
                  (start_time `div` 86400 * 86400 + 23 * 3600 + 59 * 60 + 59))
        as [[Hlt ->]|[Hle ->]]; [lia|].
      repeat case_decide; div_mod_lia.
  - by intros ?%elem_of_nil.
Qed.

(** X12: the instants the walk visits.  The walk increments the cells of the
    visited instants, one after the other; each of them lies between the
    start and the end of the session; on the day of the start they are whole
    minutes after the start, and on every later day they are whole minutes of
    the clock, because the walk resumes at 00:00:00. *)
Theorem walk_realigns_at_midnight (heat : Heat)
    (start_time end_time c : datetime) :
  c ∈ visited start_time end_time ->
  walk_session heat start_time end_time
  = visit_all heat (visited start_time end_time)
  /\ start_time <= c <= end_time
  /\ if decide (toordinal c = toordinal start_time)
     then (c - start_time) `mod` 60 = 0
     else c `mod` 60 = 0.
Proof.
  intros Hin. split; [apply walk_session_visited|].
  split; [by apply visited_bounds|].
  apply visited_steps in Hin. case_decide; [done|]. by destruct Hin.
Qed.

Lemma walk_realigns_at_midnight_witness :
  let c := jan2 0 1 0 in
  c ∈ visited (jan1 23 45 30) (jan2 0 15 0)
  /\ walk_session heat0 (jan1 23 45 30) (jan2 0 15 0)
     = visit_all heat0 (visited (jan1 23 45 30) (jan2 0 15 0))
  /\ jan1 23 45 30 <= c <= jan2 0 15 0
  /\ if decide (toordinal c = toordinal (jan1 23 45 30))
     then (c - jan1 23 45 30) `mod` 60 = 0
     else c `mod` 60 = 0.
Proof.
  intros c.
  assert (c ∈ visited (jan1 23 45 30) (jan2 0 15 0)) as Hin.
  { apply list_elem_of_In. vm_compute. tauto. }
  split; [exact Hin|].
  exact (walk_realigns_at_midnight heat0 _ _ c Hin).
Defined.

Lemma visited_minutes_shift cursor seg_end d :
  visited_minutes (cursor + d) (seg_end + d)
  = (fun t => t + d) <$> visited_minutes cursor seg_end.
Proof.
  funelim (visited_minutes cursor seg_end); clear Heq Heqcall.
  - rewrite visited_minutes_eq, decide_True by lia. rewrite fmap_cons.
    f_equal. rewrite <- H. f_equal. lia.
  - rewrite visited_minutes_eq, decide_False by lia. done.
Qed.

Lemma day_end_shift t d : day_end (t + 86400 * d) = day_end t + 86400 * d.
Proof. unfold day_end, combine, toordinal. div_mod_lia. Qed.

Lemma visited_shift start_time end_time d :
  visited (start_time + 86400 * d) (end_time + 86400 * d)
  = (fun t => t + 86400 * d) <$> visited start_time end_time.
Proof.
  funelim (visited start_time end_time); clear Heq Heqcall.
  - rewrite visited_eq, decide_True by lia.
    rewrite day_end_shift, fmap_app.
    replace (Z.min (end_time + 86400 * d) (day_end start_time + 86400 * d))
      with (Z.min end_time (day_end start_time) + 86400 * d) by lia.
    rewrite visited_minutes_shift. f_equal.
    rewrite <- H. f_equal. lia.
  - rewrite visited_eq, decide_False by lia. done.
Qed.

Lemma visit_all_fmap heat (f : datetime -> datetime) cursors :
  (forall t, weekday (f t) = weekday t /\ bin_idx (f t) = bin_idx t) ->
  visit_all heat (f <$> cursors) = visit_all heat cursors.
Proof.
  intros Hf. revert heat. induction cursors as [|c cs IH]; intros heat; [done|].
  rewrite fmap_cons. cbn [visit_all]. unfold visit.
  destruct (Hf c) as [-> ->].
  destruct (heat_at_incr heat _ _); simpl; [apply IH | done].
Qed.

(** X13: the walk sees only the weekday and the time of day: moving a
    session by a whole number of weeks, forwards or backwards, changes
    nothing in what the walk does to the matrix. *)
Theorem walk_is_weekly_periodic (heat : Heat) (start_time end_time k : Z) :
  walk_session heat (start_time + 604800 * k) (end_time + 604800 * k)
  = walk_session heat start_time end_time.
Proof.
  rewrite !walk_session_visited.
  replace (604800 * k) with (86400 * (7 * k)) by lia.
  rewrite visited_shift. apply visit_all_fmap.
  intros t. unfold weekday, bin_idx, hour, minute, toordinal.
  split; div_mod_lia.
Qed.

(** ** The matrix and the order of the rows *)

Lemma cell_count_Permutation cursors1 cursors2 wd bin :
  cursors1 ≡ₚ cursors2 ->
  cell_count cursors1 wd bin = cell_count cursors2 wd bin.
Proof. intros Hp. unfold cell_count. by rewrite Hp. Qed.

Lemma visited_rows_Permutation (rows1 rows2 : list Session) :
  rows1 ≡ₚ rows2 ->
  concat ((fun row => visited (Start_Time row) (End_Time row)) <$> rows1)
  ≡ₚ concat ((fun row => visited (Start_Time row) (End_Time row)) <$> rows2).
Proof.
  induction 1 as [|row l1 l2 _ IH|r1 r2 l|l1 l2 l3 _ IH1 _ IH2]; [done|..].
  - rewrite !fmap_cons. simpl. by rewrite IH.
  - rewrite !fmap_cons. simpl. rewrite !app_assoc.
    f_equiv. apply Permutation_app_comm.
  - by etrans.
Qed.

Lemma heat_at_rows (heat : Heat) (i j : nat) :
  heat_at heat (Z.of_nat i) (Z.of_nat j) = heat !! i ≫= fun row => row !! j.
Proof.
  unfold heat_at, label. rewrite !decide_True by lia. simpl.
  by rewrite !Nat2Z.id.
Qed.

Lemma heat_ext (heat1 heat2 : Heat) :
  shaped heat1 -> shaped heat2 ->
  (forall wd bin, heat_at heat1 wd bin = heat_at heat2 wd bin) ->
  heat1 = heat2.
Proof.
  intros [Hl1 Hr1] [Hl2 Hr2] Hcells. apply list_eq. intros i.
  destruct (heat1 !! i) as [r1|] eqn:H1; destruct (heat2 !! i) as [r2|] eqn:H2.
  - f_equal. apply list_eq. intros j.
    pose proof (Hcells (Z.of_nat i) (Z.of_nat j)) as Hc.
    rewrite !heat_at_rows, H1, H2 in Hc. done.
  - apply lookup_lt_Some in H1. apply lookup_ge_None in H2. lia.
  - apply lookup_ge_None in H1. apply lookup_lt_Some in H2. lia.
  - done.
Qed.

Lemma accumulate_Permutation heat rows1 rows2 :
  shaped heat -> rows1 ≡ₚ rows2 ->
  accumulate heat rows1 = accumulate heat rows2.
Proof.
  intros Hs Hp.
  destruct (accumulate_total heat rows1 Hs) as (c1 & H1 & Hs1 & _).
  destruct (accumulate_total heat rows2 Hs) as (c2 & H2 & Hs2 & _).
  rewrite H1, H2. f_equal. apply heat_ext; [done..|].
  intros wd bin. rewrite accumulate_visited in H1, H2.
  rewrite (visit_all_cells _ _ _ wd bin H1), (visit_all_cells _ _ _ wd bin H2).
  by rewrite (cell_count_Permutation _ _ wd bin (visited_rows_Permutation _ _ Hp)).
Qed.

Lemma weeks_Permutation rows1 rows2 :
  rows1 ≡ₚ rows2 -> weeks rows1 = weeks rows2.
Proof.
  intros Hp. unfold weeks.
  assert (Start_Time <$> rows1 ≡ₚ Start_Time <$> rows2) as Hs by (by rewrite Hp).
  destruct (Start_Time <$> rows1) as [|t ts], (Start_Time <$> rows2) as [|t' ts'].
  - done.
  - by apply Permutation_nil_l in Hs.
  - by apply Permutation_nil_r in Hs.
  - by rewrite (foldr_min_Permutation _ _ _ _ Hs),
      (foldr_max_Permutation _ _ _ _ Hs).
Qed.

Lemma build_density_Permutation today df1 df2 :
  df1 ≡ₚ df2 -> build_density today df1 = build_density today df2.
Proof.
  intros Hp. unfold build_density, recent.
  destruct df1 as [|r1 df1], df2 as [|r2 df2].
  - done.
  - by apply Permutation_nil_l in Hp.
  - by apply Permutation_nil_r in Hp.
  - cbn [mbind result_bind].
    assert (filter (fun row => at_or_after (Start_Time row) (x_months_ago today))
              (r1 :: df1)
            ≡ₚ filter (fun row => at_or_after (Start_Time row)
                                    (x_months_ago today)) (r2 :: df2)) as Hf
      by (by rewrite Hp).
    rewrite (accumulate_Permutation _ _ _ heat0_shaped Hf).
    by rewrite (weeks_Permutation _ _ Hf).
Qed.

(** ** The whole analysis *)

Lemma cells_shaped {A B} (f : A -> B) (m : list (list A)) :
  length m = 7%nat /\ Forall (fun row => length row = bins) m ->
  length (cells f m) = 7%nat
  /\ Forall (fun row => length row = bins) (cells f m).
Proof.
  intros [Hlen Hrows]. unfold cells. split; [by rewrite length_fmap|].
  apply Forall_fmap. eapply Forall_impl; [exact Hrows|].
  intros row Hrow. cbn. by rewrite length_fmap.
Qed.

Lemma normalise_shaped counts w :
  shaped counts ->
  length (normalise counts w) = 7%nat
  /\ Forall (fun row => length row = bins) (normalise counts w).
Proof.
  intros Hshaped. unfold normalise.
  destruct (weeks_positive w); repeat apply cells_shaped; exact Hshaped.
Qed.

Lemma build_density_returns today df :
  df <> [] ->
  exists matrix,
    build_density today df = Ok matrix
    /\ length matrix = 7%nat
    /\ Forall (fun row => length row = bins) matrix.
Proof.
  intros Hdf. unfold build_density.
  destruct df as [|r df]; [done|]. cbn [recent]. rewrite bind_Ok.
  destruct (accumulate_total heat0
              (filter (fun row => at_or_after (Start_Time row)
                                    (x_months_ago today)) (r :: df))
              heat0_shaped) as (counts & Hacc & Hshaped & _).
  rewrite Hacc, bind_Ok. eexists. split; [done|].
  by apply normalise_shaped.
Qed.

Lemma analysis_returns data today df :
  load data [] = Ok df -> df <> [] ->
  exists result,
    analyze_study_data data today = Ok result
    /\ length (daily_series result) = length (smoothed_7d result)
    /\ length (density_matrix result) = 7%nat
    /\ Forall (fun row => length row = bins) (density_matrix result).
Proof.
  unfold analyze_study_data. intros -> Hdf. rewrite bind_Ok.
  destruct df as [|r df]; [done|].
  destruct (study_per_day_hours (r :: df)) as [hours|] eqn:Hhours; [|done].
  rewrite bind_Ok.
  destruct (build_density_returns today (r :: df) Hdf)
    as (matrix & -> & Hlen & Hrows).
  rewrite bind_Ok. eexists. split; [done|]. cbn.
  split; [|done].
  by rewrite rolling_mean_length, length_fmap.
Qed.

(** X15: the outcomes of the analysis.  An error of the loader is the error of
    the analysis; a load without a record ends in [UnboundLocalError]; and
    every other load gives a result, with one smoothed value a day and a
    matrix of 7 rows of 48 cells: the walk never leaves the frame. *)
Theorem analysis_outcomes (data : list string) (today : clock) :
  match load data [] with
  | Raise e => analyze_study_data data today = Raise e
  | Ok [] => analyze_study_data data today = Raise UnboundLocalError
  | Ok _ =>
      exists result,
        analyze_study_data data today = Ok result
        /\ length (daily_series result) = length (smoothed_7d result)
        /\ length (density_matrix result) = 7%nat
        /\ Forall (fun row => length row = bins) (density_matrix result)
  end.
Proof.
  destruct (load data []) as [[|r df]|e] eqn:Hload.
  - unfold analyze_study_data. by rewrite Hload.
  - by apply (analysis_returns data today (r :: df)).
  - unfold analyze_study_data. by rewrite Hload.
Qed.

(** X16: the order of the lines does not matter: when the analysis of a file
    gives a result, the analysis of the same lines in any other order gives
    the same result. *)
Theorem order_of_lines_is_irrelevant (data data' : list string)
    (today : clock) (result : Analysis) :
  data ≡ₚ data' ->
  analyze_study_data data today = Ok result ->
  analyze_study_data data' today = Ok result.
Proof.
  intros Hp. unfold analyze_study_data.
  destruct (load data []) as [df|] eqn:Hload; [|done].
  destruct (load_Permutation _ _ _ Hp Hload) as (df' & -> & Hdf).
  rewrite !bind_Ok.
  by rewrite (study_per_day_hours_Permutation _ _ Hdf),
    (build_density_Permutation today _ _ Hdf).
Qed.

Lemma order_of_lines_is_irrelevant_witness :
  let data := ["1,24-01-01 10:00:00,24-01-01 10:30:00,30m";
               "2,24-01-03 09:00:00,24-01-03 10:00:00,1h"]%string in
  let data' := ["2,24-01-03 09:00:00,24-01-03 10:00:00,1h";
                "1,24-01-01 10:00:00,24-01-01 10:30:00,30m"]%string in
  data ≡ₚ data'
  /\ exists result,
       analyze_study_data data feb_2024 = Ok result
       /\ analyze_study_data data' feb_2024 = Ok result.
Proof.
  intros data data'.
  assert (data ≡ₚ data') as Hp by apply perm_swap.
  split; [exact Hp|].
  assert (load data []
          = Ok [session (jan1 10 0 0) (jan1 10 30 0) 1800;
                session (datetime_of 2024 1 3 9 0 0)
                  (datetime_of 2024 1 3 10 0 0) 3600]) as Hload
    by (vm_compute; reflexivity).
  destruct (analysis_returns data feb_2024 _ Hload ltac:(discriminate))
    as (result & H & _).
  exists result. split; [exact H|].
  exact (order_of_lines_is_irrelevant data data' feb_2024 result Hp H).
Defined.
